(** * Cindir PointCloud Manager: the processing pipeline of
    [cindir_pointcloud_manager.py]

    The development embeds class [PointCloudProcessor] (load, normal
    estimation, outlier removal, downsampling, mesh reconstruction and
    persistence).  The class is a thin layer over numpy, laspy and Open3D:
    the bookkeeping those libraries do on array shapes and on the attribute
    arrays of a geometry is written out here, while what they compute
    numerically (neighbour search, plane fitting, the Poisson solver, file
    decoding) is a field of the record [Env], so that every theorem about the
    processor holds whatever those kernels return. *)

From Stdlib Require Import ZArith List String Ascii Bool Lia Floats Uint63.
From stdpp Require Import base option list strings pretty gmap.

Local Open Scope string_scope.

(* Decimal literals such as 0.2 stand for the nearest binary64 value, as in
   Python. *)
#[local] Set Warnings "-inexact-float".

(* ===================================================================== *)
(** ** Python values: exceptions and the outcome of a call               *)
(* ===================================================================== *)

Module Py.

(** The exceptions that occur in the pipeline, each with its message. *)
Inductive exn : Type :=
| ValueError (msg : string)
| IndexError (msg : string)
| RuntimeError (msg : string)
| TypeError (msg : string)
| OSError (msg : string).

(** [str(e)] *)
Definition str (e : exn) : string :=
  match e with
  | ValueError m | IndexError m | RuntimeError m | TypeError m | OSError m => m
  end.

(** A call either returns a value or raises. *)
Inductive outcome (A : Type) : Type :=
| Return (a : A)
| Raise (e : exn).

Arguments Return {A} a.
Arguments Raise {A} e.

#[global] Instance outcome_ret : MRet outcome := fun _ a => Return a.

#[global] Instance outcome_bind : MBind outcome := fun _ _ k m =>
  match m with
  | Return a => k a
  | Raise e => Raise e
  end.

(** [str.lower()] on the ASCII range, which is where the letters of the
    recognised extensions live. *)
Definition lower_ascii (c : ascii) : ascii :=
  let n := nat_of_ascii c in
  if (65 <=? n)%nat && (n <=? 90)%nat then ascii_of_nat (n + 32) else c.

Fixpoint lower (s : string) : string :=
  match s with
  | EmptyString => EmptyString
  | String c s' => String (lower_ascii c) (lower s')
  end.

(** [s.rfind('.')], [None] standing for -1. *)
Fixpoint rfind_dot (s : string) : option nat :=
  match s with
  | EmptyString => None
  | String c s' =>
      match rfind_dot s' with
      | Some i => Some (S i)
      | None => if Ascii.eqb c "."%char then Some 0%nat else None
      end
  end.

(** The components of a POSIX path as [pathlib] parses them: split at "/",
    empty components and "." dropped. *)
Fixpoint parts_go (cur : string) (s : string) : list string :=
  match s with
  | EmptyString => [String.rev cur]
  | String c s' =>
      if Ascii.eqb c "/"%char then String.rev cur :: parts_go "" s'
      else parts_go (String c cur) s'
  end.

Definition parts (path : string) : list string :=
  filter (fun p => p <> "" /\ p <> ".") (parts_go "" path).

(** [PurePath.name]: the final component, if any. *)
Definition name (path : string) : string := List.last (parts path) "".

(** [PurePath.suffix]:
    [i = name.rfind('.'); name[i:] if 0 < i < len(name) - 1 else ''] *)
Definition suffix (path : string) : string :=
  let n := name path in
  match rfind_dot n with
  | Some i =>
      if (0 <? i)%nat && (S i <? String.length n)%nat
      then String.substring i (String.length n - i) n
      else ""
  | None => ""
  end.

(** [os.path.join(a, b)] for a relative [b]. *)
Definition ends_with_slash (a : string) : bool :=
  match String.rev a with
  | String c _ => Ascii.eqb c "/"%char
  | EmptyString => false
  end.

Definition path_join (a b : string) : string :=
  if String.eqb a "" || ends_with_slash a then a +:+ b else a +:+ "/" +:+ b.

End Py.

Import Py.

(* ===================================================================== *)
(** ** numpy: the arrays the loader handles                              *)
(* ===================================================================== *)

(** A 3D vector ([Eigen::Vector3d]). *)
Definition vec3 : Type := (float * float * float)%type.

Module np.

(** A float64 array of dimension 0, 1 or 2.  A 2-D array is the list of its
    rows; every 2-D array built below is rectangular. *)
Inductive ndarray : Type :=
| Scalar (x : float)
| Vector (v : list float)
| Matrix (rows : list (list float)).

Definition same_length (n : nat) (row : list float) : bool :=
  (length row =? n)%nat.

(** [np.squeeze] on a rectangular table, as [np.loadtxt] applies it with its
    default [ndmin=0]: every axis of length one disappears. *)
Definition squeeze (rows : list (list float)) : ndarray :=
  match rows with
  | [] => Vector []
  | [[x]] => Scalar x
  | [row] => Vector row
  | r :: _ =>
      if same_length 1 r then Vector (concat rows) else Matrix rows
  end.

(** [np.loadtxt] once the lines of the file are split and converted: the
    number of columns is that of the first line and may not change, and
    the result is squeezed. *)
Definition loadtxt (table : list (list float)) : outcome ndarray :=
  match table with
  | [] => Return (Vector [])
  | r :: _ =>
      if forallb (same_length (length r)) table
      then Return (squeeze table)
      else Raise (ValueError "the number of columns changed")
  end.

(** [data.shape[1]] *)
Definition shape1 (a : ndarray) : outcome nat :=
  match a with
  | Matrix rows => Return (length (hd [] rows))
  | _ => Raise (IndexError "tuple index out of range")
  end.

(** [data[:, lo:hi]] *)
Definition columns (lo hi : nat) (a : ndarray) : outcome ndarray :=
  match a with
  | Matrix rows => Return (Matrix (map (fun r => take (hi - lo) (drop lo r)) rows))
  | _ => Raise (IndexError "too many indices for array")
  end.

(** [a / c], elementwise. *)
Definition divide (a : ndarray) (c : float) : ndarray :=
  match a with
  | Scalar x => Scalar (x / c)%float
  | Vector v => Vector (map (fun x => (x / c)%float) v)
  | Matrix rows => Matrix (map (map (fun x => (x / c)%float)) rows)
  end.

(** [np.vstack((a, b, c)).transpose()]: the three sequences become the
    columns of an N x 3 array; [vstack] refuses sequences of different
    lengths. *)
Fixpoint zip3 (a b c : list float) : list (list float) :=
  match a, b, c with
  | x :: a', y :: b', z :: c' => [x; y; z] :: zip3 a' b' c'
  | _, _, _ => []
  end.

Definition vstack_T (a b c : list float) : outcome ndarray :=
  if (length a =? length b)%nat && (length b =? length c)%nat
  then Return (Matrix (zip3 a b c))
  else Raise (ValueError "all the input array dimensions must match exactly").

End np.

(* ===================================================================== *)
(** ** Open3D: geometries and the bookkeeping of their attribute arrays  *)
(* ===================================================================== *)

Module o3d.

Definition as_vec3 (row : list float) : option vec3 :=
  match row with
  | [x; y; z] => Some (x, y, z)
  | _ => None
  end.

(** [o3d.utility.Vector3dVector(a)]: the conversion accepts a 2-D array
    with exactly three columns and raises otherwise. *)
Definition Vector3dVector (a : np.ndarray) : outcome (list vec3) :=
  match a with
  | np.Matrix rows =>
      match mapM as_vec3 rows with
      | Some vs => Return vs
      | None => Raise (RuntimeError "Unable to cast Python instance to C++ type")
      end
  | _ => Raise (RuntimeError "Unable to cast Python instance to C++ type")
  end.

(** The search parameter of a neighbour search within a radius. *)
Inductive search_param : Type :=
| SearchParamRadius (radius : float).

(** [o3d.geometry.KDTreeSearchParamRadius(radius=radius, ...)], [others]
    being the names of the further keyword arguments of the call: the
    constructor has the one parameter [radius] (the bound on the number of
    neighbours belongs to [KDTreeSearchParamKNN] and
    [KDTreeSearchParamHybrid]), and the binding refuses a call that matches
    no signature. *)
Definition KDTreeSearchParamRadius (radius : float) (others : list string)
    : outcome search_param :=
  match others with
  | [] => Return (SearchParamRadius radius)
  | _ :: _ => Raise (TypeError "__init__(): incompatible constructor arguments.")
  end.

(** A [size_t] parameter of the binding takes an integer of its range. *)
Definition size_t (n : Z) : outcome Z :=
  if (0 <=? n)%Z && (n <? 2 ^ 64)%Z then Return n
  else Raise (TypeError "incompatible function arguments.").

End o3d.

Module PointCloud.

(** [o3d.geometry.PointCloud]: an absent attribute array is empty. *)
Record t : Type := mk {
  points : list vec3;
  colors : list vec3;
  normals : list vec3
}.

(** [o3d.geometry.PointCloud()] *)
Definition empty : t := mk [] [] [].

Definition set_colors (pcd : t) (c : list vec3) : t :=
  mk (points pcd) c (normals pcd).

Definition set_normals (pcd : t) (n : list vec3) : t :=
  mk (points pcd) (colors pcd) n.

(** [HasNormals()], [HasColors()]: the cloud has points and one entry per
    point. *)
Definition has_normals (pcd : t) : bool :=
  (0 <? length (points pcd))%nat && (length (normals pcd) =? length (points pcd))%nat.

Definition has_colors (pcd : t) : bool :=
  (0 <? length (points pcd))%nat && (length (colors pcd) =? length (points pcd))%nat.

(** The entries of [l] at the positions where [mask] holds. *)
Fixpoint select {A} (mask : list bool) (l : list A) : list A :=
  match mask, l with
  | b :: mask', x :: l' => if b then x :: select mask' l' else select mask' l'
  | _, _ => []
  end.

(** [SelectByIndex(indices)]: a new cloud with the points listed in
    [indices], in their original order, and with their normals and colours
    when the cloud has them. *)
Definition select_by_index (pcd : t) (indices : list nat) : t :=
  let mask := map (fun i => bool_decide (i ∈ indices)) (seq 0 (length (points pcd))) in
  mk (select mask (points pcd))
     (if has_colors pcd then select mask (colors pcd) else [])
     (if has_normals pcd then select mask (normals pcd) else []).

End PointCloud.

Module TriangleMesh.

(** [o3d.geometry.TriangleMesh] *)
Record t : Type := mk {
  vertices : list vec3;
  vertex_normals : list vec3;
  vertex_colors : list vec3;
  triangles : list (nat * nat * nat);
  triangle_normals : list vec3
}.

Definition has_vertex_normals (m : t) : bool :=
  (0 <? length (vertices m))%nat && (length (vertex_normals m) =? length (vertices m))%nat.

Definition has_vertex_colors (m : t) : bool :=
  (0 <? length (vertices m))%nat && (length (vertex_colors m) =? length (vertices m))%nat.

Definition has_triangle_normals (m : t) : bool :=
  (0 <? length (triangles m))%nat && (length (triangle_normals m) =? length (triangles m))%nat.

(** The entries of [l] at the positions where [mask] does not hold, in
    order: what the compaction loop of [RemoveVerticesByMask] leaves. *)
Fixpoint compact {A} (mask : list bool) (l : list A) : list A :=
  match mask, l with
  | b :: mask', x :: l' => if b then compact mask' l' else x :: compact mask' l'
  | _, _ => []
  end.

(** The [vertex_map] of [RemoveVerticesByMask]: scanning the mask from
    [from_vidx], every vertex that stays is mapped to the next free
    position [to_vidx]. *)
Fixpoint vertex_map_from (mask : list bool) (from_vidx to_vidx : nat)
    (vm : gmap nat nat) : gmap nat nat :=
  match mask with
  | [] => vm
  | true :: mask' => vertex_map_from mask' (S from_vidx) to_vidx vm
  | false :: mask' =>
      vertex_map_from mask' (S from_vidx) (S to_vidx) (<[from_vidx := to_vidx]> vm)
  end.

Definition vertex_map (mask : list bool) : gmap nat nat :=
  vertex_map_from mask 0 0 ∅.

(** [vertex_mask[i]] *)
Definition masked (mask : list bool) (i : nat) : bool := default false (mask !! i).

(** [vertex_map[i]] on a [std::unordered_map]. *)
Definition remap (vm : gmap nat nat) (i : nat) : nat := default 0%nat (vm !! i).

Definition triangle_masked (mask : list bool) (tr : nat * nat * nat) : bool :=
  let '(a, b, c) := tr in masked mask a || masked mask b || masked mask c.

Definition remap_triangle (vm : gmap nat nat) (tr : nat * nat * nat) : nat * nat * nat :=
  let '(a, b, c) := tr in (remap vm a, remap vm b, remap vm c).

(** [RemoveVerticesByMask(vertex_mask)]: raises when the mask is not one
    flag per vertex; otherwise drops the flagged vertices (with their
    normals and colours), drops every triangle that uses one of them and
    renumbers the corners of the triangles that stay. *)
Definition remove_vertices_by_mask (m : t) (vertex_mask : list bool) : outcome t :=
  if negb (length vertex_mask =? length (vertices m))%nat
  then Raise (RuntimeError "vertex_mask has a different size than vertices_")
  else
    let vm := vertex_map vertex_mask in
    let triangle_mask := map (triangle_masked vertex_mask) (triangles m) in
    Return
      (mk (compact vertex_mask (vertices m))
          (if has_vertex_normals m then compact vertex_mask (vertex_normals m) else vertex_normals m)
          (if has_vertex_colors m then compact vertex_mask (vertex_colors m) else vertex_colors m)
          (map (remap_triangle vm) (compact triangle_mask (triangles m)))
          (if has_triangle_normals m then compact triangle_mask (triangle_normals m)
           else triangle_normals m)).

(** Every corner of every triangle is the index of a vertex. *)
Definition corner_ok (n : nat) (tr : nat * nat * nat) : Prop :=
  let '(a, b, c) := tr in (a < n /\ b < n /\ c < n)%nat.

Definition faces_in_bounds (m : t) : Prop :=
  Forall (corner_ok (length (vertices m))) (triangles m).

End TriangleMesh.

(* ===================================================================== *)
(** ** The environment: files, clock and numerical kernels               *)
(* ===================================================================== *)

(** One point record of a LAS file; the colour channels are 16-bit. *)
Record LasPoint : Type := {
  las_x : float; las_y : float; las_z : float;
  las_red : Z; las_green : Z; las_blue : Z
}.

(** What [laspy.read] returns: the point records, and whether the point
    format of the file carries each colour dimension (so that
    [hasattr(las_data, 'red')] holds). *)
Record LasData : Type := {
  has_red : bool; has_green : bool; has_blue : bool;
  records : list LasPoint
}.

(** Everything the processor obtains from outside.  File contents are
    given by the three readers (an unreadable or malformed file makes the
    reader raise); the remaining fields are the numerical kernels of
    Open3D and numpy, and the clock. *)
Record Env : Type := {
  (** [laspy.read(path)] *)
  laspy_read : string -> outcome LasData;
  (** [o3d.io.read_point_cloud(path)] *)
  read_point_cloud : string -> outcome PointCloud.t;
  (** the lines of the text file at [path], each split at single spaces
      and converted field by field, as [np.loadtxt(path, delimiter=' ')]
      reads them *)
  read_table : string -> outcome (list (list float));
  (** the normal fitted at point [i] of a cloud for a search radius and a
      neighbour bound *)
  normal_at : float -> Z -> PointCloud.t -> nat -> vec3;
  (** whether point [i] passes the statistical outlier test *)
  is_inlier : Z -> float -> list vec3 -> nat -> bool;
  (** the voxel grid over the points: for each occupied voxel, in the
      order of the output, the indices of the points that fall in it; the
      grid is refused when the voxel size is too small for the extent of
      the points *)
  voxel_cells : float -> list vec3 -> outcome (list (list nat));
  (** the average of the vectors accumulated in one voxel *)
  average : list vec3 -> vec3;
  (** screened Poisson reconstruction of an oriented cloud: the mesh and
      the density of each of its vertices *)
  poisson : PointCloud.t -> Z -> float -> float -> outcome (TriangleMesh.t * list float);
  (** [np.quantile(a, q)] *)
  quantile : list float -> float -> outcome float;
  (** [datetime.now().strftime("%Y%m%d_%H%M%S")] *)
  now : string
}.

(* ===================================================================== *)
(** ** The Open3D operations the stages call                             *)
(* ===================================================================== *)

Section Library.

Variable E : Env.

(** Normal estimation over the neighbours within [radius], at most
    [max_nn] of them: the normal array is resized to one entry per point
    and filled point by point. *)
Definition pcd_estimate_normals (pcd : PointCloud.t) (radius : float) (max_nn : Z)
    : PointCloud.t :=
  PointCloud.set_normals pcd
    (map (normal_at E radius max_nn pcd) (seq 0 (length (PointCloud.points pcd)))).

(** [pcd.estimate_normals(search_param)]: a search within a radius takes
    every neighbour there is, which the kernel is told by the bound 0. *)
Definition estimate_normals_with (pcd : PointCloud.t) (search_param : o3d.search_param)
    : PointCloud.t :=
  match search_param with
  | o3d.SearchParamRadius radius => pcd_estimate_normals pcd radius 0
  end.

(** [pcd.remove_statistical_outlier(nb_neighbors, std_ratio)]: the
    binding takes the number of neighbours as a [size_t]; the parameters
    must be positive; the result is the selection of the inliers together
    with their indices. *)
Definition remove_statistical_outlier (pcd : PointCloud.t) (nb_neighbors : Z)
    (std_ratio : float) : outcome (PointCloud.t * list nat) :=
  nb_neighbors ← o3d.size_t nb_neighbors;
  if (nb_neighbors <? 1)%Z || (std_ratio <=? 0)%float
  then Raise (RuntimeError "Illegal input parameters, the number of neighbors and standard deviation ratio must be positive.")
  else
    match PointCloud.points pcd with
    | [] => Return (PointCloud.empty, [])
    | _ =>
        let indices :=
          List.filter (is_inlier E nb_neighbors std_ratio (PointCloud.points pcd))
                      (seq 0 (length (PointCloud.points pcd))) in
        Return (PointCloud.select_by_index pcd indices, indices)
    end.

(** The entries of [l] at the indices of one voxel. *)
Definition gather {A} (l : list A) (cell : list nat) : list A :=
  omap (fun i => l !! i) cell.

(** [pcd.voxel_down_sample(voxel_size)]: the voxel size must be
    positive and not too small for the extent of the cloud; every occupied
    voxel contributes the average of its points, and of their normals and
    colours when the cloud has them. *)
Definition voxel_down_sample (pcd : PointCloud.t) (voxel_size : float)
    : outcome PointCloud.t :=
  if (voxel_size <=? 0)%float
  then Raise (RuntimeError "voxel_size <= 0.")
  else
    cells ← voxel_cells E voxel_size (PointCloud.points pcd);
    Return
      (PointCloud.mk
         (map (fun c => average E (gather (PointCloud.points pcd) c)) cells)
         (if PointCloud.has_colors pcd
          then map (fun c => average E (gather (PointCloud.colors pcd) c)) cells else [])
         (if PointCloud.has_normals pcd
          then map (fun c => average E (gather (PointCloud.normals pcd) c)) cells else [])).

(** [TriangleMesh.create_from_point_cloud_poisson(pcd, depth, width,
    scale)]: refuses a cloud without normals. *)
Definition create_from_point_cloud_poisson (pcd : PointCloud.t) (depth : Z)
    (width scale : float) : outcome (TriangleMesh.t * list float) :=
  if negb (PointCloud.has_normals pcd)
  then Raise (RuntimeError "Point cloud has no normals")
  else poisson E pcd depth width scale.

End Library.

(* ===================================================================== *)
(** ** class PointCloudProcessor                                         *)
(* ===================================================================== *)

(** A log record: level and message. *)
Inductive level : Type := INFO | ERROR.

Definition log : Type := list (level * string).

(** The instance attributes.  [__init__] creates the first five;
    [original_point_count] is the attribute [save_results] looks up with
    [getattr(self, 'original_point_count', 0)]: [None] when the instance
    has no such attribute.  [colors] and [metadata] are created and never
    used again; [normals] is the array [np.asarray(pcd.normals)] that
    [estimate_normals] is to store (a view of the normal array of the
    cloud it is taken from, which no later stage writes to). *)
Record PointCloudProcessor : Type := Processor {
  point_cloud : option PointCloud.t;
  mesh : option TriangleMesh.t;
  normals : option (list vec3);
  colors : option (list vec3);
  metadata : list (string * string);
  original_point_count : option Z
}.

Definition __init__ : PointCloudProcessor :=
  Processor None None None None [] None.

Definition set_point_cloud (self : PointCloudProcessor) (pcd : PointCloud.t) :=
  Processor (Some pcd) (mesh self) (normals self) (colors self) (metadata self)
            (original_point_count self).

Definition set_mesh (self : PointCloudProcessor) (m : TriangleMesh.t) :=
  Processor (point_cloud self) (Some m) (normals self) (colors self) (metadata self)
            (original_point_count self).

Definition set_normals (self : PointCloudProcessor) (n : list vec3) :=
  Processor (point_cloud self) (mesh self) (Some n) (colors self) (metadata self)
            (original_point_count self).

(** What a method call leaves behind: its outcome, the processor and the
    records it logged. *)
Record result : Type := Result {
  ret : outcome bool;
  self' : PointCloudProcessor;
  logged : log
}.

Section Processor.

Variable E : Env.

Definition float_of_channel (c : Z) : float := PrimFloat.of_uint63 (Uint63.of_Z c).

Definition _load_las (file_path : string) : outcome PointCloud.t :=
  las_data ← laspy_read E file_path;
  let rs := records las_data in
  points ← np.vstack_T (map las_x rs) (map las_y rs) (map las_z rs);
  pts ← o3d.Vector3dVector points;
  let pcd := PointCloud.mk pts [] [] in
  if has_red las_data && has_green las_data && has_blue las_data then
    colors ← np.vstack_T (map (fun r => float_of_channel (las_red r)) rs)
                         (map (fun r => float_of_channel (las_green r)) rs)
                         (map (fun r => float_of_channel (las_blue r)) rs);
    cs ← o3d.Vector3dVector (np.divide colors 65535%float);
    mret (PointCloud.set_colors pcd cs)
  else mret pcd.

Definition _load_ply (file_path : string) : outcome PointCloud.t :=
  read_point_cloud E file_path.

Definition _load_pcd (file_path : string) : outcome PointCloud.t :=
  read_point_cloud E file_path.

Definition _load_xyz (file_path : string) : outcome PointCloud.t :=
  table ← read_table E file_path;
  data ← np.loadtxt table;
  xyz ← np.columns 0 3 data;
  pts ← o3d.Vector3dVector xyz;
  let pcd := PointCloud.mk pts [] [] in
  ncols ← np.shape1 data;
  if (3 <? ncols)%nat then
    rgb ← np.columns 3 6 data;
    cs ← o3d.Vector3dVector (np.divide rgb 255%float);
    mret (PointCloud.set_colors pcd cs)
  else mret pcd.

(** The body of the [try] of [load_pointcloud], up to the assignment. *)
Definition load_dispatch (file_path : string) : outcome PointCloud.t :=
  let file_ext := lower (suffix file_path) in
  if String.eqb file_ext ".las" || String.eqb file_ext ".laz" then _load_las file_path
  else if String.eqb file_ext ".ply" then _load_ply file_path
  else if String.eqb file_ext ".pcd" then _load_pcd file_path
  else if String.eqb file_ext ".xyz" then _load_xyz file_path
  else Raise (ValueError ("Unsupported file format: " +:+ file_ext)).

Definition load_pointcloud (file_path : string) (self : PointCloudProcessor) : result :=
  match load_dispatch file_path with
  | Return pcd =>
      Result (Return true) (set_point_cloud self pcd)
        [(INFO, "Successfully loaded point cloud: "
                +:+ pretty (length (PointCloud.points pcd)) +:+ " points")]
  | Raise e =>
      Result (Return false) self [(ERROR, "Failed to load point cloud: " +:+ str e)]
  end.

Definition estimate_normals (radius : float) (max_nn : Z) (self : PointCloudProcessor)
    : result :=
  match point_cloud self with
  | None => Result (Return false) self []
  | Some pcd =>
      (* the argument of the call is evaluated first *)
      match o3d.KDTreeSearchParamRadius radius ["max_nn"] with
      | Raise e => Result (Raise e) self []
      | Return search_param =>
          let pcd := estimate_normals_with E pcd search_param in
          Result (Return true)
            (set_normals (set_point_cloud self pcd) (PointCloud.normals pcd))
            [(INFO, "Normals estimated successfully")]
      end
  end.

Definition remove_outliers (nb_neighbors : Z) (std_ratio : float)
    (self : PointCloudProcessor) : result :=
  match point_cloud self with
  | None => Result (Return false) self []
  | Some pcd =>
      match remove_statistical_outlier E pcd nb_neighbors std_ratio with
      | Raise e => Result (Raise e) self []
      | Return (cleaned_pcd, _) =>
          Result (Return true) (set_point_cloud self cleaned_pcd)
            [(INFO, "Outliers removed. Remaining points: "
                    +:+ pretty (length (PointCloud.points cleaned_pcd)))]
      end
  end.

Definition downsample (voxel_size : float) (self : PointCloudProcessor) : result :=
  match point_cloud self with
  | None => Result (Return false) self []
  | Some pcd =>
      match voxel_down_sample E pcd voxel_size with
      | Raise e => Result (Raise e) self []
      | Return downsampled =>
          Result (Return true) (set_point_cloud self downsampled)
            [(INFO, "Downsampled to "
                    +:+ pretty (length (PointCloud.points downsampled)) +:+ " points")]
      end
  end.

(** The guard of [create_mesh]:
    [self.point_cloud is None or self.normals is None]. *)
Definition missing_prerequisite (self : PointCloudProcessor) : bool :=
  match point_cloud self, normals self with
  | Some _, Some _ => false
  | _, _ => true
  end.

(** The literal [0.1]. *)
Definition tenth : float := 0x1.999999999999ap-4%float.

Definition create_mesh (depth : Z) (width scale : float) (self : PointCloudProcessor)
    : result :=
  match point_cloud self, normals self with
  | Some pcd, Some _ =>
      match create_from_point_cloud_poisson E pcd depth width scale with
      | Raise e => Result (Raise e) self []
      | Return (m, densities) =>
          (* self.mesh is bound to the raw mesh from here on *)
          match quantile E densities tenth with
          | Raise e => Result (Raise e) (set_mesh self m) []
          | Return q =>
              let vertices_to_remove := map (fun d => (d <? q)%float) densities in
              match TriangleMesh.remove_vertices_by_mask m vertices_to_remove with
              | Raise e => Result (Raise e) (set_mesh self m) []
              | Return pruned =>
                  Result (Return true) (set_mesh self pruned)
                    [(INFO, "Mesh created with "
                            +:+ pretty (length (TriangleMesh.vertices pruned))
                            +:+ " vertices")]
              end
          end
      end
  | _, _ => Result (Return false) self []
  end.

End Processor.

(* ===================================================================== *)
(** ** Persistence                                                       *)
(* ===================================================================== *)

(** A JSON value of the metadata record. *)
Inductive json : Type :=
| JStr (s : string)
| JInt (n : Z).

(** What a path of the output tree holds.  A disk maps the paths that
    exist to what they hold; paths are compared as they are written, so a
    disk has every file under one spelling of its path. *)
Inductive file : Type :=
| Directory
| CloudPLY (pcd : PointCloud.t)
| MeshPLY (m : TriangleMesh.t)
| JSONFile (obj : list (string * json)).

Module os.

(** [os.path.exists(path)] *)
Definition exists_ (fs : gmap string file) (path : string) : bool :=
  bool_decide (is_Some (fs !! path)).

(** What precedes each "/" of a path, shortest first. *)
Fixpoint prefixes (path : string) : list string :=
  match path with
  | EmptyString => []
  | String c path' =>
      ((if Ascii.eqb c "/"%char then [""] else []) ++ map (String c) (prefixes path'))%list
  end.

(** The directories above [path], outermost first; the root and the
    working directory, which are always there, are left out. *)
Definition ancestors (path : string) : list string :=
  List.filter (fun a => negb (String.eqb a "")) (prefixes path).

(** [os.mkdir] on each of [paths] in turn that is not a directory yet: a
    regular file in the way makes it raise. *)
Fixpoint mkdirs (fs : gmap string file) (paths : list string)
    : outcome (gmap string file) :=
  match paths with
  | [] => Return fs
  | path :: paths' =>
      match fs !! path with
      | None => mkdirs (<[path := Directory]> fs) paths'
      | Some Directory => mkdirs fs paths'
      | Some _ => Raise (OSError ("Not a directory: " +:+ path))
      end
  end.

(** [os.makedirs(path)]: the empty path and a path that exists are
    refused; otherwise the missing directories above [path] are created,
    outermost first, and then [path] itself. *)
Definition makedirs (fs : gmap string file) (path : string)
    : outcome (gmap string file) :=
  if String.eqb path "" then Raise (OSError "No such file or directory: ''")
  else if exists_ fs path then Raise (OSError ("File exists: " +:+ path))
  else mkdirs fs (ancestors path ++ [path])%list.

(** [open(os.path.join(dir, name), 'w')] followed by writing [content]:
    the file is created, or truncated, when [dir] is a directory and the
    path itself is not one. *)
Definition write (fs : gmap string file) (dir name : string) (content : file)
    : outcome (gmap string file) :=
  match fs !! dir with
  | Some Directory =>
      match fs !! path_join dir name with
      | Some Directory => Raise (OSError ("Is a directory: " +:+ path_join dir name))
      | _ => Return (<[path_join dir name := content]> fs)
      end
  | _ => Raise (OSError ("Not a directory: " +:+ dir))
  end.

End os.

(** [o3d.io.write_point_cloud] and [o3d.io.write_triangle_mesh] report a
    failure by their return value, which [save_results] ignores: an empty
    geometry, or a file that cannot be opened for writing, leaves the disk
    as it is. *)
Definition write_point_cloud (fs : gmap string file) (dir name : string)
    (pcd : PointCloud.t) : gmap string file :=
  match PointCloud.points pcd, os.write fs dir name (CloudPLY pcd) with
  | _ :: _, Return fs' => fs'
  | _, _ => fs
  end.

Definition write_triangle_mesh (fs : gmap string file) (dir name : string)
    (m : TriangleMesh.t) : gmap string file :=
  match TriangleMesh.vertices m, os.write fs dir name (MeshPLY m) with
  | _ :: _, Return fs' => fs'
  | _, _ => fs
  end.

Section Persister.

Variable E : Env.

Definition cloud_name (timestamp : string) : string :=
  "processed_cloud_" +:+ timestamp +:+ ".ply".

Definition mesh_name (timestamp : string) : string :=
  "mesh_" +:+ timestamp +:+ ".ply".

Definition metadata_name (timestamp : string) : string :=
  "metadata_" +:+ timestamp +:+ ".json".

(** The dictionary [save_results] builds, in insertion order. *)
Definition metadata_of (timestamp : string) (self : PointCloudProcessor)
    : list (string * json) :=
  [ ("processing_date", JStr timestamp);
    ("original_points", JInt (default 0%Z (original_point_count self)));
    ("final_points",
      JInt (match point_cloud self with
            | Some pcd => Z.of_nat (length (PointCloud.points pcd))
            | None => 0%Z
            end));
    ("mesh_vertices",
      JInt (match mesh self with
            | Some m => Z.of_nat (length (TriangleMesh.vertices m))
            | None => 0%Z
            end));
    ("mesh_faces",
      JInt (match mesh self with
            | Some m => Z.of_nat (length (TriangleMesh.triangles m))
            | None => 0%Z
            end)) ].

(** [save_results] also acts on the disk, which it takes and gives back. *)
Definition save_results (output_dir : string) (self : PointCloudProcessor)
    (fs : gmap string file) : result * gmap string file :=
  match (if os.exists_ fs output_dir then Return fs else os.makedirs fs output_dir) with
  | Raise e => (Result (Raise e) self [], fs)
  | Return fs =>
      let timestamp := now E in
      let fs :=
        match point_cloud self with
        | Some pcd => write_point_cloud fs output_dir (cloud_name timestamp) pcd
        | None => fs
        end in
      let fs :=
        match mesh self with
        | Some m => write_triangle_mesh fs output_dir (mesh_name timestamp) m
        | None => fs
        end in
      let metadata := metadata_of timestamp self in
      match os.write fs output_dir (metadata_name timestamp) (JSONFile metadata) with
      | Raise e => (Result (Raise e) self [], fs)
      | Return fs =>
          (Result (Return true) self [(INFO, "Results saved to " +:+ output_dir)], fs)
      end
  end.

End Persister.

(* ===================================================================== *)
(** ** Runs: sequences of calls on one processor                         *)
(* ===================================================================== *)

Inductive call : Type :=
| Load (file_path : string)
| EstimateNormals (radius : float) (max_nn : Z)
| RemoveOutliers (nb_neighbors : Z) (std_ratio : float)
| Downsample (voxel_size : float)
| CreateMesh (depth : Z) (width scale : float)
| SaveResults (output_dir : string).

(** The processor, the disk and the log. *)
Record world : Type := World {
  proc : PointCloudProcessor;
  disk : gmap string file;
  console : log
}.

Section Runs.

Variable E : Env.

(** One call: the result of the method and the disk after it. *)
Definition invoke (c : call) (self : PointCloudProcessor) (fs : gmap string file)
    : result * gmap string file :=
  match c with
  | Load p => (load_pointcloud E p self, fs)
  | EstimateNormals r k => (estimate_normals E r k self, fs)
  | RemoveOutliers k s => (remove_outliers E k s self, fs)
  | Downsample v => (downsample E v self, fs)
  | CreateMesh d w s => (create_mesh E d w s self, fs)
  | SaveResults dir => save_results E dir self fs
  end.

Definition exec (c : call) (w : world) : world :=
  let '(r, fs) := invoke c (proc w) (disk w) in
  World (self' r) fs (console w ++ logged r)%list.

(** The caller goes on with the next call whatever the outcome was. *)
Definition run (cs : list call) (w : world) : world :=
  fold_left (fun w c => exec c w) cs w.

Definition start : world := World __init__ ∅ [].

End Runs.

(* ===================================================================== *)
(** ** class CindirPointCloudManager                                     *)
(* ===================================================================== *)

(** [os.path.basename(path)]: what follows the last "/". *)
Fixpoint basename_go (cur : string) (s : string) : string :=
  match s with
  | EmptyString => String.rev cur
  | String c s' =>
      if Ascii.eqb c "/"%char then basename_go "" s' else basename_go (String c cur) s'
  end.

Definition basename (path : string) : string := basename_go "" path.

(** A message box that was shown: kind, title and text. *)
Inductive dialog : Type :=
| showerror (title message : string)
| showinfo (title message : string).

(** The options of the right panel, one [BooleanVar] each. *)
Inductive option_var : Type :=
| estimate_normals_var
| remove_outliers_var
| downsample_var
| create_mesh_var.

#[global] Instance option_var_eq_dec : EqDecision option_var.
Proof. solve_decision. Defined.

(** The window.  Beside the attributes of the instance and the state of
    the widgets the methods act on, it records the message boxes shown so
    far and the worker threads in flight: a worker only sleeps and then
    hands its callback to the main loop with [root.after(0, ...)], so what
    matters of it is that its callback is still to come. *)
Record CindirPointCloudManager : Type := Manager {
  processor : PointCloudProcessor;
  current_file : option string;
  processing : bool;
  file_path_var : string;
  status_var : string;
  process_button_normal : bool;
  progress_running : bool;
  options : option_var -> bool;
  dialogs : list dialog;
  import_workers : nat;
  processing_workers : nat
}.

(** [__init__] and [setup_ui]. *)
Definition Manager__init__ : CindirPointCloudManager :=
  {| processor := __init__;
     current_file := None;
     processing := false;
     file_path_var := "";
     status_var := "Ready to import pointcloud...";
     process_button_normal := false;
     progress_running := false;
     options := fun v => match v with downsample_var => false | _ => true end;
     dialogs := [];
     import_workers := 0;
     processing_workers := 0 |}.

Definition set_file_path (app : CindirPointCloudManager) (text : string) :=
  Manager (processor app) (current_file app) (processing app) text (status_var app)
          (process_button_normal app) (progress_running app) (options app)
          (dialogs app) (import_workers app) (processing_workers app).

Definition show (app : CindirPointCloudManager) (d : dialog) :=
  Manager (processor app) (current_file app) (processing app) (file_path_var app)
          (status_var app) (process_button_normal app) (progress_running app)
          (options app) (dialogs app ++ [d])%list
          (import_workers app) (processing_workers app).

(** [filename] is what the file dialog returned, empty when it was
    cancelled. *)
Definition browse_file (filename : string) (app : CindirPointCloudManager) :=
  if String.eqb filename "" then app else set_file_path app filename.

Definition import_pointcloud (app : CindirPointCloudManager) :=
  if String.eqb (file_path_var app) "" then
    show app (showerror "Error" "Please select a point cloud file first.")
  else
    Manager (processor app) (current_file app) (processing app) (file_path_var app)
            "Importing point cloud file..."
            (process_button_normal app) true (options app) (dialogs app)
            (S (import_workers app)) (processing_workers app).

Definition import_complete (app : CindirPointCloudManager) :=
  Manager (processor app) (Some (basename (file_path_var app))) (processing app)
          (file_path_var app)
          "Point cloud imported successfully! Ready for processing."
          true false (options app) (dialogs app)
          (import_workers app) (processing_workers app).

(** [not self.current_file] *)
Definition no_current_file (app : CindirPointCloudManager) : bool :=
  match current_file app with
  | None => true
  | Some f => String.eqb f ""
  end.

Definition start_processing (app : CindirPointCloudManager) :=
  if no_current_file app then
    show app (showerror "Error" "Please import a point cloud file first.")
  else
    Manager (processor app) (current_file app) true (file_path_var app)
            "Processing point cloud with advanced algorithms..."
            false true (options app) (dialogs app)
            (import_workers app) (S (processing_workers app)).

Definition processing_complete (app : CindirPointCloudManager) :=
  Manager (processor app) (current_file app) false (file_path_var app)
          "Processing completed successfully!"
          true false (options app)
          (dialogs app ++ [showinfo "Success" "Point cloud processing completed!"])%list
          (import_workers app) (processing_workers app).

(** What can happen to the window: the user picks a file in the dialog,
    edits the path entry, ticks an option, presses one of the two buttons,
    or a worker thread ends its sleep and its callback runs. *)
Inductive event : Type :=
| Browse (filename : string)
| EditPath (text : string)
| Tick (v : option_var)
| PressImport
| PressProcess
| ImportWorkerDone
| ProcessingWorkerDone.

Definition tick (v : option_var) (app : CindirPointCloudManager) :=
  Manager (processor app) (current_file app) (processing app) (file_path_var app)
          (status_var app) (process_button_normal app) (progress_running app)
          (fun v' => if bool_decide (v' = v)
                     then negb (options app v') else options app v')
          (dialogs app) (import_workers app) (processing_workers app).

Definition end_import_worker (app : CindirPointCloudManager) :=
  Manager (processor app) (current_file app) (processing app) (file_path_var app)
          (status_var app) (process_button_normal app) (progress_running app)
          (options app) (dialogs app)
          (pred (import_workers app)) (processing_workers app).

Definition end_processing_worker (app : CindirPointCloudManager) :=
  Manager (processor app) (current_file app) (processing app) (file_path_var app)
          (status_var app) (process_button_normal app) (progress_running app)
          (options app) (dialogs app)
          (import_workers app) (pred (processing_workers app)).

(** One event.  A disabled button does not call its command, and a
    worker can only end when there is one. *)
Definition react (ev : event) (app : CindirPointCloudManager)
    : CindirPointCloudManager :=
  match ev with
  | Browse filename => browse_file filename app
  | EditPath text => set_file_path app text
  | Tick v => tick v app
  | PressImport => import_pointcloud app
  | PressProcess => if process_button_normal app then start_processing app else app
  | ImportWorkerDone =>
      match import_workers app with
      | O => app
      | S _ => import_complete (end_import_worker app)
      end
  | ProcessingWorkerDone =>
      match processing_workers app with
      | O => app
      | S _ => processing_complete (end_processing_worker app)
      end
  end.

Definition session (evs : list event) (app : CindirPointCloudManager)
    : CindirPointCloudManager :=
  fold_left (fun app ev => react ev app) evs app.

(* ===================================================================== *)
(** ** A reference environment                                           *)
(* ===================================================================== *)

(** A small disk and straightforward kernels, on which the definitions
    above can be run. *)
Module Reference.

Local Open Scope float_scope.

(** [floor(x)] as an integer. *)
Definition floorZ (x : float) : Z :=
  match Prim2SF x with
  | S754_finite s m e => Z.shiftl (if s then Z.neg m else Z.pos m) e
  | _ => 0%Z
  end.

Definition float_of_nat (n : nat) : float :=
  PrimFloat.of_uint63 (Uint63.of_Z (Z.of_nat n)).

Definition vadd (a b : vec3) : vec3 :=
  let '(ax, ay, az) := a in let '(bx, b_y, bz) := b in (ax + bx, ay + b_y, az + bz).

(** Accumulate, then divide by the count. *)
Definition centroid (vs : list vec3) : vec3 :=
  let '(sx, sy, sz) := fold_left vadd vs (0, 0, 0) in
  let n := float_of_nat (length vs) in
  (sx / n, sy / n, sz / n).

Definition fmin (a b : float) : float := if a <? b then a else b.

Definition min_bound (ps : list vec3) : vec3 :=
  match ps with
  | [] => (0, 0, 0)
  | p :: ps' =>
      fold_left (fun '(mx, my, mz) '(x, y, z) => (fmin mx x, fmin my y, fmin mz z)) ps' p
  end.

(** The voxel of a point: the grid starts half a voxel below the
    bounding box. *)
Definition voxel_index (voxel_size : float) (lo : vec3) (p : vec3) : Z * Z * Z :=
  let '(lx, ly, lz) := lo in
  let '(x, y, z) := p in
  let h := voxel_size * 0.5 in
  (floorZ ((x - (lx - h)) / voxel_size),
   floorZ ((y - (ly - h)) / voxel_size),
   floorZ ((z - (lz - h)) / voxel_size)).

(** Insert point [i] in the cell of its voxel, cells in order of first
    occurrence. *)
Fixpoint add_to_cell (k : Z * Z * Z) (i : nat) (cells : list (Z * Z * Z * list nat))
    : list (Z * Z * Z * list nat) :=
  match cells with
  | [] => [(k, [i])]
  | (k', is_) :: rest =>
      if bool_decide (k = k') then (k', (is_ ++ [i])%list) :: rest
      else (k', is_) :: add_to_cell k i rest
  end.

Definition voxel_grid (voxel_size : float) (ps : list vec3) : list (list nat) :=
  let lo := min_bound ps in
  map snd
    (fold_left (fun cells '(i, p) => add_to_cell (voxel_index voxel_size lo p) i cells)
               (imap (fun i p => (i, p)) ps) []).

Definition fmax (a b : float) : float := if a <? b then b else a.

Definition max_bound (ps : list vec3) : vec3 :=
  match ps with
  | [] => (0, 0, 0)
  | p :: ps' =>
      fold_left (fun '(mx, my, mz) '(x, y, z) => (fmax mx x, fmax my y, fmax mz z)) ps' p
  end.

(** The largest side of the grid, which reaches half a voxel beyond the
    bounding box on each side. *)
Definition grid_extent (voxel_size : float) (ps : list vec3) : float :=
  let '(lx, ly, lz) := min_bound ps in
  let '(hx, hy, hz) := max_bound ps in
  let h := voxel_size * 0.5 in
  fmax (fmax ((hx + h) - (lx - h)) ((hy + h) - (ly - h))) ((hz + h) - (lz - h)).

(** The grid is refused when a voxel index could exceed an [int]. *)
Definition bounded_voxel_grid (voxel_size : float) (ps : list vec3)
    : outcome (list (list nat)) :=
  if voxel_size * 2147483647 <? grid_extent voxel_size ps
  then Raise (RuntimeError "voxel_size is too small.")
  else Return (voxel_grid voxel_size ps).

Fixpoint insert_sorted (x : float) (l : list float) : list float :=
  match l with
  | [] => [x]
  | y :: l' => if x <=? y then x :: l else y :: insert_sorted x l'
  end.

Definition sort (l : list float) : list float := fold_right insert_sorted [] l.

(** numpy's linear interpolation between neighbouring order statistics. *)
Definition lerp (a b t : float) : float :=
  if b =? a then a
  else if 0.5 <=? t then b - (b - a) * (1 - t)
  else a + (b - a) * t.

Definition np_quantile (a : list float) (q : float) : outcome float :=
  match a with
  | [] => Raise (IndexError "index -1 is out of bounds for axis 0 with size 0")
  | x :: _ =>
      let sorted := sort a in
      let virtual := float_of_nat (length a - 1) * q in
      let lo := Z.to_nat (floorZ virtual) in
      let hi := Nat.min (S lo) (length a - 1) in
      Return (lerp (nth lo sorted x) (nth hi sorted x) (virtual - float_of_nat lo))
  end.

(** The files on the reference disk. *)
Definition bare_xyz : list (list float) := [[0; 0; 0]; [1; 0; 0]; [0; 1; 0]].

Definition colored_xyz : list (list float) :=
  [[0; 0; 0; 255; 0; 51]; [1; 2; 3; 0; 102; 255]].

Definition tagged_xyz : list (list float) := [[0; 0; 0; 7]; [1; 2; 3; 9]].

Definition single_xyz : list (list float) := [[1; 2; 3]].

Definition twin_xyz : list (list float) := [[1; 1; 1]; [1; 1; 1]].

Definition text_files (path : string) : outcome (list (list float)) :=
  if String.eqb path "bare.xyz" then Return bare_xyz
  else if String.eqb path "colored.xyz" then Return colored_xyz
  else if String.eqb path "tagged.xyz" then Return tagged_xyz
  else if String.eqb path "single.xyz" then Return single_xyz
  else if String.eqb path "twin.xyz" then Return twin_xyz
  else Raise (OSError (path +:+ " not found.")).

Definition survey_las : LasData :=
  {| has_red := true; has_green := true; has_blue := true;
     records :=
       [ {| las_x := 0; las_y := 0; las_z := 0;
            las_red := 65535; las_green := 0; las_blue := 0 |};
         {| las_x := 2; las_y := 0; las_z := 1;
            las_red := 0; las_green := 65535; las_blue := 13107 |} ] |}.

Definition las_files (path : string) : outcome LasData :=
  if String.eqb path "survey.las" then Return survey_las
  else Raise (OSError ("No such file or directory: " +:+ path)).

Definition plate_ply : PointCloud.t :=
  PointCloud.mk [(0, 0, 0); (1, 0, 0); (0, 1, 0); (1, 1, 0)] []
                [(0, 0, 1); (0, 0, 1); (0, 0, 1); (0, 0, 1)].

(** Open3D's reader gives an empty cloud for a file it cannot read. *)
Definition cloud_files (path : string) : outcome PointCloud.t :=
  if String.eqb path "plate.ply" then Return plate_ply
  else Return PointCloud.empty.

(** A reconstruction with one sparsely supported vertex. *)
Definition tetra : TriangleMesh.t :=
  TriangleMesh.mk [(0, 0, 0); (1, 0, 0); (0, 1, 0); (0, 0, 1)] [] []
                  [(0, 1, 2); (0, 1, 3); (0, 2, 3); (1, 2, 3)]%nat [].

Definition reconstruct (pcd : PointCloud.t) (depth : Z) (width scale : float)
    : outcome (TriangleMesh.t * list float) :=
  Return (tetra, [1; 5; 6; 7]).

Definition env : Env :=
  {| laspy_read := las_files;
     read_point_cloud := cloud_files;
     read_table := text_files;
     normal_at := fun _ _ _ _ => (0, 0, 1);
     is_inlier := fun _ _ _ _ => true;
     voxel_cells := bounded_voxel_grid;
     average := centroid;
     poisson := reconstruct;
     quantile := np_quantile;
     now := "20240131_093000" |}.

(** A second environment: one more text file, whose lines differ in
    length, and a reconstruction whose vertices are all equally well
    supported. *)
Definition ragged_xyz : list (list float) := [[0; 0; 0]; [1; 2]].

Definition more_text_files (path : string) : outcome (list (list float)) :=
  if String.eqb path "ragged.xyz" then Return ragged_xyz else text_files path.

Definition reconstruct_even (pcd : PointCloud.t) (depth : Z) (width scale : float)
    : outcome (TriangleMesh.t * list float) :=
  Return (tetra, [4; 4; 4; 4]).

Definition even_env : Env :=
  {| laspy_read := las_files;
     read_point_cloud := cloud_files;
     read_table := more_text_files;
     normal_at := fun _ _ _ _ => (0, 0, 1);
     is_inlier := fun _ _ _ _ => true;
     voxel_cells := bounded_voxel_grid;
     average := centroid;
     poisson := reconstruct_even;
     quantile := np_quantile;
     now := "20240131_093000" |}.

(** A third environment, in which the reconstruction comes back without
    a single vertex. *)
Definition hollow : TriangleMesh.t := TriangleMesh.mk [] [] [] [] [].

Definition reconstruct_hollow (pcd : PointCloud.t) (depth : Z) (width scale : float)
    : outcome (TriangleMesh.t * list float) :=
  Return (hollow, []).

Definition hollow_env : Env :=
  {| laspy_read := las_files;
     read_point_cloud := cloud_files;
     read_table := text_files;
     normal_at := fun _ _ _ _ => (0, 0, 1);
     is_inlier := fun _ _ _ _ => true;
     voxel_cells := bounded_voxel_grid;
     average := centroid;
     poisson := reconstruct_hollow;
     quantile := np_quantile;
     now := "20240131_093000" |}.

End Reference.

(* ===================================================================== *)
(** ** The vocabulary of the statements                                  *)
(* ===================================================================== *)

(** The call is a normal estimation. *)
Definition is_estimate (c : call) : bool :=
  match c with EstimateNormals _ _ => true | _ => false end.

(** The extensions [load_pointcloud] dispatches on. *)
Definition recognised : list string := [".las"; ".laz"; ".ply"; ".pcd"; ".xyz"].

(** A component of a path that names a file or a directory. *)
Definition plain_name (c : string) : bool :=
  negb (String.eqb c "") && negb (String.eqb c ".") && negb (String.eqb c "..").

(** A path below the working directory that is written without detours:
    names with single slashes between them. *)
Definition clean_path (path : string) : bool :=
  forallb plain_name (parts_go "" path).

(** The disk is a tree below the working directory: every path on it is
    written without detours and lies under directories. *)
Definition well_formed (fs : gmap string file) : Prop :=
  map_Forall (fun path _ =>
                clean_path path = true
                /\ Forall (fun a => fs !! a = Some Directory) (os.ancestors path)) fs.

(** The output directory can be used: it is a directory already, or it is
    absent and nothing but directories stands above it (it gets created,
    with what is missing above it). *)
Definition usable_dir (fs : gmap string file) (dir : string) : Prop :=
  clean_path dir = true
  /\ (fs !! dir = Some Directory
      \/ (fs !! dir = None
          /\ Forall (fun a => fs !! a = None \/ fs !! a = Some Directory)
                    (os.ancestors dir))).

(** A file can be written at the path: no directory stands there. *)
Definition writable (fs : gmap string file) (path : string) : Prop :=
  fs !! path <> Some Directory.

(** The coordinates and the colour a line of an XYZ file stands for. *)
Definition point_of (row : list float) : vec3 :=
  (nth 0 row 0%float, nth 1 row 0%float, nth 2 row 0%float).

Definition color_of (row : list float) : vec3 :=
  ((nth 3 row 0 / 255)%float, (nth 4 row 0 / 255)%float, (nth 5 row 0 / 255)%float).

(** How many of the vertices before position [i] stay. *)
Definition rank (mask : list bool) (i : nat) : nat :=
  length (List.filter negb (take i mask)).

(** Vertex [i] has a density below the threshold [q]. *)
Definition sparse (densities : list float) (q : float) (i : nat) : bool :=
  match densities !! i with
  | Some d => (d <? q)%float
  | None => false
  end.

(** The position of vertex [i] among the vertices that stay. *)
Definition new_index (densities : list float) (q : float) (i : nat) : nat :=
  length (List.filter (fun d => negb (d <? q)%float) (take i densities)).

Definition uses_sparse (densities : list float) (q : float) (tr : nat * nat * nat)
    : bool :=
  let '(a, b, c) := tr in
  sparse densities q a || sparse densities q b || sparse densities q c.

Definition renumber (densities : list float) (q : float) (tr : nat * nat * nat)
    : nat * nat * nat :=
  let '(a, b, c) := tr in
  (new_index densities q a, new_index densities q b, new_index densities q c).

(** What pruning at threshold [q] makes of a mesh [raw] whose vertices
    have the given densities. *)
Definition pruned_from (raw : TriangleMesh.t) (densities : list float) (q : float)
    (pruned : TriangleMesh.t) : Prop :=
  (* exactly the vertices whose density is below the threshold are gone *)
  TriangleMesh.vertices pruned
  = map fst (List.filter (fun vd => negb (snd vd <? q)%float)
                         (combine (TriangleMesh.vertices raw) densities))
  /\ (length (TriangleMesh.vertices pruned) <= length (TriangleMesh.vertices raw))%nat
  (* a vertex that stays is found at its new index *)
  /\ (forall i v,
        sparse densities q i = false -> TriangleMesh.vertices raw !! i = Some v ->
        TriangleMesh.vertices pruned !! new_index densities q i = Some v)
  /\ (TriangleMesh.faces_in_bounds raw ->
      (* the faces that used no such vertex stay, renumbered *)
      TriangleMesh.triangles pruned
      = map (renumber densities q)
            (List.filter (fun tr => negb (uses_sparse densities q tr))
                         (TriangleMesh.triangles raw))
      /\ TriangleMesh.faces_in_bounds pruned).

(** The invariant of a point cloud: a colour or normal array that is
    present has one entry per point. *)
Definition consistent (pcd : PointCloud.t) : Prop :=
  (PointCloud.colors pcd = []
   \/ length (PointCloud.colors pcd) = length (PointCloud.points pcd))
  /\ (PointCloud.normals pcd = []
      \/ length (PointCloud.normals pcd) = length (PointCloud.points pcd)).

Definition cloud_consistent (self : PointCloudProcessor) : Prop :=
  match point_cloud self with
  | Some pcd => consistent pcd
  | None => True
  end.

(** What is expected of Open3D's own reader of .ply and .pcd files. *)
Definition reader_consistent (E : Env) : Prop :=
  forall path pcd, read_point_cloud E path = Return pcd -> consistent pcd.

(** The coordinates and the colour a LAS point record stands for. *)
Definition las_point_of (r : LasPoint) : vec3 := (las_x r, las_y r, las_z r).

Definition las_color_of (r : LasPoint) : vec3 :=
  ((float_of_channel (las_red r) / 65535)%float,
   (float_of_channel (las_green r) / 65535)%float,
   (float_of_channel (las_blue r) / 65535)%float).

(** The cloud [_load_las] builds from decoded LAS data. *)
Definition cloud_of_las (las : LasData) : PointCloud.t :=
  PointCloud.mk (map las_point_of (records las))
                (if has_red las && has_green las && has_blue las
                 then map las_color_of (records las) else [])
                [].

(** What a successful load leaves: the new cloud, and one log record with
    its number of points. *)
Definition loaded (self : PointCloudProcessor) (pcd : PointCloud.t) : result :=
  Result (Return true) (set_point_cloud self pcd)
    [(INFO, "Successfully loaded point cloud: "
            +:+ pretty (length (PointCloud.points pcd)) +:+ " points")].

(** What holds of a processor however it was driven: [colors],
    [metadata] and [original_point_count] are as [__init__] left them,
    normals are only there with a point cloud, and a mesh only with
    normals. *)
Definition driven (self : PointCloudProcessor) : Prop :=
  colors self = None
  /\ metadata self = []
  /\ original_point_count self = None
  /\ (is_Some (normals self) -> is_Some (point_cloud self))
  /\ (is_Some (mesh self) -> is_Some (normals self)).


(** What holds of the window whatever the user did: before an import
    has completed the process button is disabled and nothing is being
    processed; while [processing] is set, or the progress bar runs, or the
    button is disabled after an import, a worker is still to end. *)
Definition window_ok (app : CindirPointCloudManager) : Prop :=
  (current_file app = None ->
   process_button_normal app = false /\ processing app = false
   /\ processing_workers app = 0%nat)
  /\ (processing app = true -> (0 < processing_workers app)%nat)
  /\ (process_button_normal app = false ->
      current_file app = None \/ (0 < processing_workers app)%nat)
  /\ (progress_running app = true ->
      (0 < import_workers app + processing_workers app)%nat).

(** *** Processors on the reference disk *)

(** A processor with the cloud of plate.ply, whose normals have been put
    in [self.normals] from outside the class. *)
Definition oriented : PointCloudProcessor :=
  Processor (Some Reference.plate_ply) None
            (Some (PointCloud.normals Reference.plate_ply)) None [] None.

(** A disk with a directory of scans and a file of notes in it. *)
Definition scans_disk : gmap string file :=
  <["scans/notes.json" := JSONFile [("site", JStr "quarry")]]>
    (<["scans" := Directory]> ∅).

(** The same processor once [create_mesh] has run on it. *)
Definition processed : PointCloudProcessor :=
  self' (create_mesh Reference.env 8 tenth 1.1%float oriented).

(* ===================================================================== *)
(** ** The definitions at work                                           *)
(* ===================================================================== *)

Example suffix_upper : lower (suffix "/data/scans/ROOM.XYZ") = ".xyz".
Proof. reflexivity. Qed.

Example suffix_hidden : suffix "/data/.xyz" = "".
Proof. reflexivity. Qed.

Example suffix_last_only : suffix "scan.tar.ply" = ".ply".
Proof. reflexivity. Qed.

Example suffix_of_dir_ignored : suffix "scans.las/readme" = "".
Proof. reflexivity. Qed.

Example path_join_plain : path_join "out" "mesh.ply" = "out/mesh.ply".
Proof. reflexivity. Qed.

Example load_colored :
  load_dispatch Reference.env "colored.xyz"
  = Return (PointCloud.mk [(0, 0, 0); (1, 2, 3)]%float
                          [(1, 0, 0.2); (0, 0.4, 1)]%float []).
Proof. vm_compute. reflexivity. Qed.

Example quantile_tenth :
  Reference.np_quantile [1; 5; 6; 7]%float tenth = Return 2.2%float.
Proof. vm_compute. reflexivity. Qed.

Example voxel_twins :
  Reference.voxel_grid 0.05%float [(1, 1, 1); (1, 1, 1); (3, 1, 1)]%float
  = [[0; 1]; [2]]%nat.
Proof. vm_compute. reflexivity. Qed.

(* ===================================================================== *)
(** ** Stages without their prerequisites                                *)
(* ===================================================================== *)

Section Prerequisites.

Variable E : Env.

Lemma create_mesh_guarded (depth : Z) (width scale : float) (self : PointCloudProcessor) :
  missing_prerequisite self = true ->
  create_mesh E depth width scale self = Result (Return false) self [].
Proof.
  unfold missing_prerequisite, create_mesh.
  destruct (point_cloud self), (normals self); intros H; try discriminate H; reflexivity.
Qed.

Lemma create_mesh_false (depth : Z) (width scale : float) (self : PointCloudProcessor) :
  ret (create_mesh E depth width scale self) = Return false ->
  missing_prerequisite self = true.
Proof.
  unfold missing_prerequisite, create_mesh.
  destruct (point_cloud self) as [pcd|], (normals self) as [n|]; try reflexivity.
  destruct (create_from_point_cloud_poisson E pcd depth width scale) as [[m ds]|e];
    [|discriminate].
  destruct (quantile E ds tenth) as [q|e]; [|discriminate].
  destruct (TriangleMesh.remove_vertices_by_mask m _); discriminate.
Qed.

Lemma missing_prerequisite_spec (self : PointCloudProcessor) :
  missing_prerequisite self = true <-> point_cloud self = None \/ normals self = None.
Proof.
  unfold missing_prerequisite.
  destruct (point_cloud self), (normals self); split; intros H;
    try reflexivity; try discriminate H; auto; destruct H; discriminate.
Qed.

Lemma load_frame (file_path : string) (self : PointCloudProcessor) :
  normals (self' (load_pointcloud E file_path self)) = normals self
  /\ mesh (self' (load_pointcloud E file_path self)) = mesh self
  /\ original_point_count (self' (load_pointcloud E file_path self))
     = original_point_count self.
Proof.
  unfold load_pointcloud. destruct (load_dispatch E file_path); simpl; auto.
Qed.

Lemma remove_outliers_frame (k : Z) (s : float) (self : PointCloudProcessor) :
  normals (self' (remove_outliers E k s self)) = normals self
  /\ mesh (self' (remove_outliers E k s self)) = mesh self
  /\ original_point_count (self' (remove_outliers E k s self))
     = original_point_count self.
Proof.
  unfold remove_outliers. destruct (point_cloud self) as [pcd|]; simpl; auto.
  destruct (remove_statistical_outlier E pcd k s) as [[c i]|e]; simpl; auto.
Qed.

Lemma downsample_frame (v : float) (self : PointCloudProcessor) :
  normals (self' (downsample E v self)) = normals self
  /\ mesh (self' (downsample E v self)) = mesh self
  /\ original_point_count (self' (downsample E v self)) = original_point_count self.
Proof.
  unfold downsample. destruct (point_cloud self) as [pcd|]; simpl; auto.
  destruct (voxel_down_sample E pcd v); simpl; auto.
Qed.

Lemma create_mesh_frame (d : Z) (w s : float) (self : PointCloudProcessor) :
  normals (self' (create_mesh E d w s self)) = normals self
  /\ point_cloud (self' (create_mesh E d w s self)) = point_cloud self
  /\ original_point_count (self' (create_mesh E d w s self)) = original_point_count self.
Proof.
  unfold create_mesh.
  destruct (point_cloud self) as [pcd|] eqn:Hp, (normals self) as [n|] eqn:Hn;
    simpl; auto.
  destruct (create_from_point_cloud_poisson E pcd d w s) as [[m ds]|e]; simpl; auto.
  destruct (quantile E ds tenth) as [q|e]; simpl; auto.
  destruct (TriangleMesh.remove_vertices_by_mask m _); simpl; auto.
Qed.

Lemma save_results_frame (dir : string) (self : PointCloudProcessor)
    (fs : gmap string file) :
  self' (fst (save_results E dir self fs)) = self.
Proof.
  unfold save_results.
  destruct (if os.exists_ fs dir then _ else _) as [fs1|e]; simpl; auto.
  destruct (os.write _ dir _ _); reflexivity.
Qed.

(** The constructor call of [estimate_normals] names a parameter the
    constructor does not have: on a loaded cloud the method raises before
    it computes or assigns anything. *)
Lemma estimate_normals_raises (r : float) (k : Z) (self : PointCloudProcessor)
    (pcd : PointCloud.t) :
  point_cloud self = Some pcd ->
  estimate_normals E r k self
  = Result (Raise (TypeError "__init__(): incompatible constructor arguments.")) self [].
Proof. intros H. unfold estimate_normals. now rewrite H. Qed.

Lemma estimate_normals_unchanged (r : float) (k : Z) (self : PointCloudProcessor) :
  self' (estimate_normals E r k self) = self
  /\ logged (estimate_normals E r k self) = [].
Proof. unfold estimate_normals. destruct (point_cloud self); simpl; auto. Qed.

Lemma estimate_normals_frame (r : float) (k : Z) (self : PointCloudProcessor) :
  mesh (self' (estimate_normals E r k self)) = mesh self
  /\ original_point_count (self' (estimate_normals E r k self))
     = original_point_count self.
Proof. now rewrite (proj1 (estimate_normals_unchanged r k self)). Qed.

Lemma invoke_keeps_normals (c : call) (self : PointCloudProcessor)
    (fs : gmap string file) :
  is_estimate c = false ->
  normals (self' (fst (invoke E c self fs))) = normals self.
Proof.
  destruct c; simpl; intros H; try discriminate H.
  - apply load_frame.
  - apply remove_outliers_frame.
  - apply downsample_frame.
  - apply create_mesh_frame.
  - now rewrite save_results_frame.
Qed.

Lemma exec_proc (c : call) (w : world) :
  proc (exec E c w) = self' (fst (invoke E c (proc w) (disk w))).
Proof. unfold exec. destruct (invoke E c (proc w) (disk w)); reflexivity. Qed.

Lemma run_keeps_normals (cs : list call) (w : world) :
  forallb (fun c => negb (is_estimate c)) cs = true ->
  normals (proc (run E cs w)) = normals (proc w).
Proof.
  unfold run. revert w. induction cs as [|c cs IH]; intros w H; simpl in *; [reflexivity|].
  apply andb_prop in H as [Hc Hcs].
  rewrite (IH _ Hcs), exec_proc.
  apply invoke_keeps_normals. now destruct (is_estimate c).
Qed.

(** No call creates the attribute [original_point_count]. *)
Lemma invoke_keeps_original (c : call) (self : PointCloudProcessor)
    (fs : gmap string file) :
  original_point_count (self' (fst (invoke E c self fs))) = original_point_count self.
Proof.
  destruct c; simpl.
  - apply load_frame.
  - apply estimate_normals_frame.
  - apply remove_outliers_frame.
  - apply downsample_frame.
  - apply create_mesh_frame.
  - now rewrite save_results_frame.
Qed.

Lemma run_keeps_original (cs : list call) (w : world) :
  original_point_count (proc (run E cs w)) = original_point_count (proc w).
Proof.
  unfold run. revert w. induction cs as [|c cs IH]; intros w; simpl; [reflexivity|].
  rewrite IH, exec_proc. apply invoke_keeps_original.
Qed.

(** C7. Without a loaded point cloud, normal estimation, outlier removal
    and downsampling each return [False], change nothing in the processor
    and log nothing. *)
Theorem stages_without_cloud (self : PointCloudProcessor) :
  point_cloud self = None ->
  (forall radius max_nn,
      estimate_normals E radius max_nn self = Result (Return false) self [])
  /\ (forall nb_neighbors std_ratio,
      remove_outliers E nb_neighbors std_ratio self = Result (Return false) self [])
  /\ (forall voxel_size,
      downsample E voxel_size self = Result (Return false) self []).
Proof.
  intros H. unfold estimate_normals, remove_outliers, downsample.
  rewrite H. repeat split.
Qed.

(** C6. Mesh reconstruction returns [False], and leaves the processor
    as it was, whenever the point cloud or the normal array is missing; in
    particular it fails after any sequence of calls from a fresh
    processor among which there is no normal estimation. *)
Theorem create_mesh_missing_prerequisite :
  (forall depth width scale self,
      point_cloud self = None \/ normals self = None ->
      create_mesh E depth width scale self = Result (Return false) self [])
  /\ (forall cs depth width scale,
      forallb (fun c => negb (is_estimate c)) cs = true ->
      create_mesh E depth width scale (proc (run E cs start))
      = Result (Return false) (proc (run E cs start)) []).
Proof.
  split.
  - intros d w s self H. apply create_mesh_guarded, missing_prerequisite_spec, H.
  - intros cs d w s H. apply create_mesh_guarded, missing_prerequisite_spec.
    right. now rewrite run_keeps_normals.
Qed.

End Prerequisites.

Lemma stages_without_cloud_witness :
  point_cloud __init__ = None
  /\ (forall radius max_nn,
        estimate_normals Reference.env radius max_nn __init__
        = Result (Return false) __init__ [])
  /\ (forall nb_neighbors std_ratio,
        remove_outliers Reference.env nb_neighbors std_ratio __init__
        = Result (Return false) __init__ [])
  /\ (forall voxel_size,
        downsample Reference.env voxel_size __init__ = Result (Return false) __init__ []).
Proof.
  split; [reflexivity|].
  apply (stages_without_cloud Reference.env __init__). reflexivity.
Defined.

(* ===================================================================== *)
(** ** Loading                                                           *)
(* ===================================================================== *)

Section Loading.

Variable E : Env.

Lemma load_returns (file_path : string) (self : PointCloudProcessor) :
  ret (load_pointcloud E file_path self) = Return true
  \/ ret (load_pointcloud E file_path self) = Return false.
Proof. unfold load_pointcloud. destruct (load_dispatch E file_path); auto. Qed.

Lemma load_true (file_path : string) (self : PointCloudProcessor) :
  ret (load_pointcloud E file_path self) = Return true ->
  exists pcd, load_dispatch E file_path = Return pcd
              /\ self' (load_pointcloud E file_path self) = set_point_cloud self pcd.
Proof.
  unfold load_pointcloud. destruct (load_dispatch E file_path) as [pcd|e]; simpl.
  - eauto.
  - discriminate.
Qed.

Lemma load_false (file_path : string) (self : PointCloudProcessor) :
  ret (load_pointcloud E file_path self) = Return false ->
  self' (load_pointcloud E file_path self) = self.
Proof.
  unfold load_pointcloud. destruct (load_dispatch E file_path); simpl.
  - discriminate.
  - reflexivity.
Qed.

(** C5. A load returns [True] only for a path whose suffix, lowercased,
    is one of .las, .laz, .ply, .pcd, .xyz; for any other path the body
    raises the "Unsupported file format" [ValueError], which
    [load_pointcloud] logs before it returns [False] with the processor
    unchanged. *)
Theorem load_by_extension (file_path : string) (self : PointCloudProcessor) :
  (ret (load_pointcloud E file_path self) = Return true ->
   In (lower (suffix file_path)) recognised)
  /\ (~ In (lower (suffix file_path)) recognised ->
      load_dispatch E file_path
      = Raise (ValueError ("Unsupported file format: " +:+ lower (suffix file_path)))
      /\ load_pointcloud E file_path self
         = Result (Return false) self
             [(ERROR, "Failed to load point cloud: Unsupported file format: "
                      +:+ lower (suffix file_path))]).
Proof.
  unfold load_pointcloud, load_dispatch, recognised.
  set (ext := lower (suffix file_path)).
  destruct (String.eqb_spec ext ".las") as [->|Hlas]; [simpl; tauto|].
  destruct (String.eqb_spec ext ".laz") as [->|Hlaz]; [simpl; tauto|].
  destruct (String.eqb_spec ext ".ply") as [->|Hply]; [simpl; tauto|].
  destruct (String.eqb_spec ext ".pcd") as [->|Hpcd]; [simpl; tauto|].
  destruct (String.eqb_spec ext ".xyz") as [->|Hxyz]; [simpl; tauto|].
  simpl. split.
  - discriminate.
  - intros _. split; reflexivity.
Qed.

(** C10. A successful load replaces the point cloud and nothing else:
    the normal array and the mesh of the processor are the ones it had
    before, so that, when normals had been estimated for an earlier cloud,
    the guard of [create_mesh] lets the call through. *)
Theorem load_keeps_normals_and_mesh (file_path : string) (self : PointCloudProcessor) :
  ret (load_pointcloud E file_path self) = Return true ->
  normals (self' (load_pointcloud E file_path self)) = normals self
  /\ mesh (self' (load_pointcloud E file_path self)) = mesh self
  /\ (is_Some (normals self) ->
      missing_prerequisite (self' (load_pointcloud E file_path self)) = false
      /\ forall depth width scale,
          ret (create_mesh E depth width scale (self' (load_pointcloud E file_path self)))
          <> Return false).
Proof.
  intros H. destruct (load_true _ _ H) as (pcd & _ & ->). simpl.
  split; [reflexivity|]. split; [reflexivity|].
  intros [n Hn]. split.
  - unfold missing_prerequisite. simpl. now rewrite Hn.
  - intros d w s Hf. apply create_mesh_false in Hf.
    unfold missing_prerequisite in Hf. simpl in Hf. rewrite Hn in Hf. discriminate.
Qed.

End Loading.

(* ===================================================================== *)
(** ** Failing stages                                                    *)
(* ===================================================================== *)

Section Failure.

Variable E : Env.

Lemma save_results_not_false (dir : string) (self : PointCloudProcessor)
    (fs : gmap string file) :
  ret (fst (save_results E dir self fs)) <> Return false.
Proof.
  unfold save_results.
  destruct (if os.exists_ fs dir then _ else _) as [fs1|e]; simpl; [|discriminate].
  destruct (os.write _ dir _ _); simpl; discriminate.
Qed.

(** A call that returns [False] leaves the processor (point cloud,
    normals, mesh and the other attributes) and the disk exactly as they
    were. *)
Lemma returning_false_changes_nothing (c : call) (self : PointCloudProcessor)
    (fs : gmap string file) :
  ret (fst (invoke E c self fs)) = Return false ->
  self' (fst (invoke E c self fs)) = self /\ snd (invoke E c self fs) = fs.
Proof.
  destruct c as [p|r k|k s|v|d w s|dir]; simpl; intros H.
  - split; [now apply load_false | reflexivity].
  - split; [apply estimate_normals_unchanged | reflexivity].
  - unfold remove_outliers in *. destruct (point_cloud self) as [pcd|]; [|auto].
    destruct (remove_statistical_outlier E pcd k s) as [[c i]|e]; discriminate H.
  - unfold downsample in *. destruct (point_cloud self) as [pcd|]; [|auto].
    destruct (voxel_down_sample E pcd v); discriminate H.
  - apply create_mesh_false in H. now rewrite create_mesh_guarded.
  - now apply save_results_not_false in H.
Qed.

(** An exception escaping from a stage that replaces the point cloud
    leaves the processor as it was too: the library raises before the
    assignment.  [create_mesh] is set apart: when [np.quantile] or the
    removal raises, [self.mesh] is already bound to the unpruned
    reconstruction. *)
Lemma raising_stage_changes_nothing (c : call) (self : PointCloudProcessor)
    (fs : gmap string file) (e : exn) :
  match c with CreateMesh _ _ _ => False | _ => True end ->
  ret (fst (invoke E c self fs)) = Raise e ->
  self' (fst (invoke E c self fs)) = self.
Proof.
  destruct c as [p|r k|k s|v|d w s|dir]; simpl; intros Hc H; try contradiction.
  - destruct (load_returns E p self) as [Hr|Hr]; rewrite Hr in H; discriminate H.
  - apply estimate_normals_unchanged.
  - unfold remove_outliers in *. destruct (point_cloud self) as [pcd|]; [|auto].
    destruct (remove_statistical_outlier E pcd k s) as [[c i]|e']; [discriminate H|auto].
  - unfold downsample in *. destruct (point_cloud self) as [pcd|]; [|auto].
    destruct (voxel_down_sample E pcd v); [discriminate H|auto].
  - apply save_results_frame.
Qed.

End Failure.

Example processed_has_everything :
  (length ∘ PointCloud.points) <$> point_cloud processed = Some 4%nat
  /\ length <$> normals processed = Some 4%nat
  /\ (length ∘ TriangleMesh.vertices) <$> mesh processed = Some 3%nat.
Proof. vm_compute. auto. Qed.

(** C4. Two failures after which the processor is not as it was.  On the
    reference disk "plate.ply" holds four points and there is no file
    "missing.ply" nor "missing.xyz".  Loading the missing .xyz file after
    the plate fails as it should: [False], an error record, the plate still
    there.  Loading the missing .ply file does not: Open3D's reader hands
    back an empty cloud, which the processor takes for the new cloud, logs
    as a success with 0 points, and returns [True] for.  And on a
    processor that holds normals and a mesh of three vertices, when the
    reconstruction comes back without vertices, so that [np.quantile]
    raises, [create_mesh] has already replaced the mesh of the processor by
    the raw one. *)
Theorem failure_replaces_state :
  (length ∘ PointCloud.points)
    <$> point_cloud (proc (run Reference.env [Load "plate.ply"] start))
  = Some 4%nat
  /\ load_pointcloud Reference.env "missing.xyz"
       (proc (run Reference.env [Load "plate.ply"] start))
     = Result (Return false) (proc (run Reference.env [Load "plate.ply"] start))
         [(ERROR, "Failed to load point cloud: missing.xyz not found.")]
  /\ load_pointcloud Reference.env "missing.ply"
       (proc (run Reference.env [Load "plate.ply"] start))
     = Result (Return true)
         (set_point_cloud (proc (run Reference.env [Load "plate.ply"] start))
                          PointCloud.empty)
         [(INFO, "Successfully loaded point cloud: 0 points")]
  /\ (length ∘ PointCloud.points)
       <$> point_cloud (proc (run Reference.env [Load "plate.ply"; Load "missing.ply"]
                                  start))
     = Some 0%nat
  /\ (length ∘ TriangleMesh.vertices) <$> mesh processed = Some 3%nat
  /\ ret (create_mesh Reference.hollow_env 8 tenth 1.1%float processed)
     = Raise (IndexError "index -1 is out of bounds for axis 0 with size 0")
  /\ mesh (self' (create_mesh Reference.hollow_env 8 tenth 1.1%float processed))
     = Some Reference.hollow.
Proof. vm_compute. repeat split. Qed.

Lemma load_keeps_normals_and_mesh_witness :
  ret (load_pointcloud Reference.env "bare.xyz" processed) = Return true
  /\ normals (self' (load_pointcloud Reference.env "bare.xyz" processed))
     = normals processed
  /\ mesh (self' (load_pointcloud Reference.env "bare.xyz" processed)) = mesh processed
  /\ (is_Some (normals processed) ->
      missing_prerequisite (self' (load_pointcloud Reference.env "bare.xyz" processed))
      = false
      /\ forall depth width scale,
          ret (create_mesh Reference.env depth width scale
                 (self' (load_pointcloud Reference.env "bare.xyz" processed)))
          <> Return false).
Proof.
  split; [reflexivity|].
  apply (load_keeps_normals_and_mesh Reference.env "bare.xyz" processed).
  reflexivity.
Defined.

(** The stale normals are those of the four points of the earlier cloud,
    the new cloud has three points and no normals of its own, and the
    reconstruction is attempted on it. *)
Example stale_normals_reach_reconstruction :
  length <$> normals (self' (load_pointcloud Reference.env "bare.xyz" processed))
  = Some 4%nat
  /\ (length ∘ PointCloud.points)
       <$> point_cloud (self' (load_pointcloud Reference.env "bare.xyz" processed))
     = Some 3%nat
  /\ ret (create_mesh Reference.env 8 tenth 1.1%float
            (self' (load_pointcloud Reference.env "bare.xyz" processed)))
     = Raise (RuntimeError "Point cloud has no normals").
Proof. vm_compute. auto. Qed.

(* ===================================================================== *)
(** ** The metadata record                                               *)
(* ===================================================================== *)

Lemma length_append (a b : string) :
  String.length (a +:+ b) = (String.length a + String.length b)%nat.
Proof. induction a as [|c a IH]; simpl; [reflexivity | now rewrite IH]. Qed.

Lemma path_join_length (dir name : string) :
  name <> "" -> (String.length dir < String.length (path_join dir name))%nat.
Proof.
  intros Hn. unfold path_join.
  destruct (String.eqb dir "" || ends_with_slash dir);
    rewrite !length_append; destruct name; simpl; try lia; now contradiction Hn.
Qed.

Lemma path_join_longer (dir name : string) :
  name <> "" -> path_join dir name <> dir.
Proof.
  intros Hn Heq. apply (path_join_length dir) in Hn. rewrite Heq in Hn. lia.
Qed.

Lemma append_cancel (a b c : string) : a +:+ b = a +:+ c -> b = c.
Proof. induction a as [|x a IH]; simpl; [auto|]. intros [= H]. auto. Qed.

Lemma path_join_cancel (dir a b : string) :
  path_join dir a = path_join dir b -> a = b.
Proof.
  unfold path_join. destruct (String.eqb dir "" || ends_with_slash dir); intros H.
  - now apply append_cancel in H.
  - apply append_cancel in H. now injection H.
Qed.

(** *** Directories *)

Lemma prefixes_shorter (path a : string) :
  In a (os.prefixes path) -> (String.length a < String.length path)%nat.
Proof.
  revert a. induction path as [|c path IH]; simpl; intros a H; [contradiction|].
  apply in_app_or in H as [H|H].
  - destruct (Ascii.eqb c "/"%char); [|contradiction].
    destruct H as [<-|[]]. simpl. lia.
  - apply in_map_iff in H as (b & <- & Hb). simpl. specialize (IH _ Hb). lia.
Qed.

Lemma ancestors_shorter (path a : string) :
  In a (os.ancestors path) -> (String.length a < String.length path)%nat.
Proof.
  unfold os.ancestors. intros H. apply filter_In in H as [H _].
  now apply prefixes_shorter.
Qed.

(** What is written in a directory is not above it. *)
Lemma path_join_not_above (dir name : string) :
  name <> "" -> ~ In (path_join dir name) (os.ancestors dir).
Proof.
  intros Hn Hin. apply ancestors_shorter in Hin.
  apply (path_join_length dir) in Hn. lia.
Qed.

Lemma mkdirs_elsewhere (paths : list string) :
  forall fs fs' p,
    os.mkdirs fs paths = Return fs' -> ~ In p paths -> fs' !! p = fs !! p.
Proof.
  induction paths as [|a paths IH]; simpl; intros fs fs' p H Hp.
  - now injection H as <-.
  - destruct (fs !! a) as [[]|] eqn:Ha; try discriminate H.
    + apply IH; [exact H | tauto].
    + rewrite (IH _ _ p H) by tauto. apply lookup_insert_ne. intros ->. tauto.
Qed.

Lemma mkdirs_creates (paths : list string) :
  forall fs,
    Forall (fun a => fs !! a = None \/ fs !! a = Some Directory) paths ->
    exists fs', os.mkdirs fs paths = Return fs'
                /\ forall a, In a paths -> fs' !! a = Some Directory.
Proof.
  induction paths as [|a paths IH]; simpl; intros fs H.
  - exists fs. split; [reflexivity | intros ? []].
  - inversion H as [|? ? Ha Hrest]; subst.
    destruct Ha as [Ha|Ha]; rewrite Ha.
    + destruct (IH (<[a:=Directory]> fs)) as (fs' & Hfs' & Hall).
      { clear -Hrest. induction Hrest as [|b l Hb _ IHl]; constructor; [|exact IHl].
        destruct (String.string_dec a b) as [->|Hne].
        - right. apply lookup_insert_eq.
        - now rewrite lookup_insert_ne. }
      exists fs'. split; [exact Hfs'|]. intros b [<-|Hb]; [|auto].
      destruct (in_dec String.string_dec a paths) as [Hin|Hout]; [auto|].
      rewrite (mkdirs_elsewhere _ _ _ _ Hfs' Hout). apply lookup_insert_eq.
    + destruct (IH fs Hrest) as (fs' & Hfs' & Hall).
      exists fs'. split; [exact Hfs'|]. intros b [<-|Hb]; [|auto].
      destruct (in_dec String.string_dec a paths) as [Hin|Hout]; [auto|].
      now rewrite (mkdirs_elsewhere _ _ _ _ Hfs' Hout).
Qed.

Lemma clean_path_named (dir : string) : clean_path dir = true -> dir <> "".
Proof. intros H ->. discriminate H. Qed.

(** The first two lines of [save_results] on a usable directory. *)
Lemma output_dir_prepared (fs : gmap string file) (dir : string) :
  usable_dir fs dir ->
  exists fs1,
    (if os.exists_ fs dir then Return fs else os.makedirs fs dir) = Return fs1
    /\ fs1 !! dir = Some Directory
    /\ forall p, p <> dir -> ~ In p (os.ancestors dir) -> fs1 !! p = fs !! p.
Proof.
  intros [Hclean [Hd|[Hd Habove]]].
  - unfold os.exists_. rewrite Hd, bool_decide_eq_true_2 by eauto. eauto.
  - assert (os.exists_ fs dir = false) as Hex.
    { unfold os.exists_. rewrite Hd.
      apply bool_decide_eq_false_2. intros [? ?]; discriminate. }
    unfold os.makedirs. rewrite Hex.
    apply clean_path_named, String.eqb_neq in Hclean. rewrite Hclean.
    destruct (mkdirs_creates (os.ancestors dir ++ [dir]) fs) as (fs1 & H1 & Hall).
    { apply Forall_app. split; [exact Habove|]. constructor; [now left | constructor]. }
    exists fs1. split; [exact H1|]. split.
    + apply Hall, in_or_app. right. now left.
    + intros p Hp Hnot. apply (mkdirs_elsewhere _ _ _ _ H1).
      intros Hin. apply in_app_or in Hin as [Hin|[Hin|[]]]; [tauto | congruence].
Qed.

Lemma write_there (fs : gmap string file) (dir name : string) (content : file) :
  fs !! dir = Some Directory -> writable fs (path_join dir name) ->
  os.write fs dir name content = Return (<[path_join dir name := content]> fs).
Proof.
  intros Hd Hw. unfold os.write. rewrite Hd.
  destruct (fs !! path_join dir name) as [[]|] eqn:Ht; try reflexivity.
  now contradiction Hw.
Qed.

Lemma write_point_cloud_elsewhere (fs : gmap string file) (dir name p : string)
    (pcd : PointCloud.t) :
  p <> path_join dir name -> write_point_cloud fs dir name pcd !! p = fs !! p.
Proof.
  intros H. unfold write_point_cloud, os.write.
  destruct (PointCloud.points pcd); [reflexivity|].
  destruct (fs !! dir) as [[]|]; try reflexivity.
  destruct (fs !! path_join dir name) as [[]|]; try reflexivity;
    now apply lookup_insert_ne.
Qed.

Lemma write_triangle_mesh_elsewhere (fs : gmap string file) (dir name p : string)
    (m : TriangleMesh.t) :
  p <> path_join dir name -> write_triangle_mesh fs dir name m !! p = fs !! p.
Proof.
  intros H. unfold write_triangle_mesh, os.write.
  destruct (TriangleMesh.vertices m); [reflexivity|].
  destruct (fs !! dir) as [[]|]; try reflexivity.
  destruct (fs !! path_join dir name) as [[]|]; try reflexivity;
    now apply lookup_insert_ne.
Qed.

Lemma names_differ (ts : string) :
  cloud_name ts <> mesh_name ts /\ cloud_name ts <> metadata_name ts
  /\ mesh_name ts <> metadata_name ts.
Proof. repeat split; discriminate. Qed.

Lemma names_named (ts : string) :
  cloud_name ts <> "" /\ mesh_name ts <> "" /\ metadata_name ts <> "".
Proof. repeat split; discriminate. Qed.

Section Metadata.

Variable E : Env.

(** The disk a save leaves on a usable directory, write by write. *)
Lemma save_results_disk (dir : string) (self : PointCloudProcessor)
    (fs : gmap string file) :
  usable_dir fs dir ->
  writable fs (path_join dir (metadata_name (now E))) ->
  exists fs1 fs2 fs3,
    fs1 !! dir = Some Directory
    /\ (forall p, p <> dir -> ~ In p (os.ancestors dir) -> fs1 !! p = fs !! p)
    /\ fs2 = match point_cloud self with
             | Some pcd => write_point_cloud fs1 dir (cloud_name (now E)) pcd
             | None => fs1
             end
    /\ fs3 = match mesh self with
             | Some m => write_triangle_mesh fs2 dir (mesh_name (now E)) m
             | None => fs2
             end
    /\ save_results E dir self fs
       = (Result (Return true) self [(INFO, "Results saved to " +:+ dir)],
          <[path_join dir (metadata_name (now E))
            := JSONFile (metadata_of (now E) self)]> fs3).
Proof.
  intros Hdir Hw.
  destruct (output_dir_prepared fs dir Hdir) as (fs1 & Hprep & H1 & Hsame).
  destruct (names_differ (now E)) as (Hcm & Hcj & Hmj).
  destruct (names_named (now E)) as (Hc & Hm & Hj).
  unfold save_results. rewrite Hprep.
  exists fs1. do 2 eexists.
  split; [exact H1|]. split; [exact Hsame|]. split; [reflexivity|].
  split; [reflexivity|].
  set (meta := path_join dir (metadata_name (now E))) in *.
  assert (meta <> dir) as Hmd by now apply path_join_longer.
  assert (fs1 !! meta = fs !! meta) as H1'.
  { apply Hsame; [exact Hmd | now apply path_join_not_above]. }
  set (fs2 := match point_cloud self with Some pcd => _ | None => fs1 end).
  assert (fs2 !! dir = Some Directory /\ fs2 !! meta = fs !! meta) as [H2 H2'].
  { unfold fs2. destruct (point_cloud self); [|now split].
    rewrite !write_point_cloud_elsewhere; [now split | |].
    - intros Heq. apply path_join_cancel in Heq. now apply Hcj.
    - intros Heq. now apply (path_join_longer dir (cloud_name (now E))). }
  set (fs3 := match mesh self with Some m => _ | None => fs2 end).
  assert (fs3 !! dir = Some Directory /\ fs3 !! meta = fs !! meta) as [H3 H3'].
  { unfold fs3. destruct (mesh self); [|now split].
    rewrite !write_triangle_mesh_elsewhere; [now split | |].
    - intros Heq. apply path_join_cancel in Heq. now apply Hmj.
    - intros Heq. now apply (path_join_longer dir (mesh_name (now E))). }
  rewrite write_there; [reflexivity | exact H3 |].
  unfold writable. fold meta. now rewrite H3'.
Qed.

Lemma save_results_writes (dir : string) (self : PointCloudProcessor)
    (fs : gmap string file) :
  usable_dir fs dir ->
  writable fs (path_join dir (metadata_name (now E))) ->
  ret (fst (save_results E dir self fs)) = Return true
  /\ snd (save_results E dir self fs) !! path_join dir (metadata_name (now E))
     = Some (JSONFile (metadata_of (now E) self)).
Proof.
  intros Hdir Hw.
  destruct (save_results_disk dir self fs Hdir Hw) as (fs1 & fs2 & fs3 & _ & _ & _ & _ & ->).
  split; [reflexivity|]. apply lookup_insert_eq.
Qed.

(** C9. Whatever the processor holds, [save_results] returns [True] and
    leaves a metadata file whose keys are exactly processing_date,
    original_points, final_points, mesh_vertices and mesh_faces, in which a
    count is 0 when its artifact is absent; with no point cloud and no mesh
    the three artifact counts are 0, and so is original_points unless the
    attribute was set from outside.  This is so on a disk that lets the
    file be written: the output directory is a directory, or can be
    created under the directories above it, and no directory stands at the
    path of the metadata file. *)
Theorem save_results_metadata (dir : string) (self : PointCloudProcessor)
    (fs : gmap string file) :
  well_formed fs ->
  usable_dir fs dir ->
  writable fs (path_join dir ("metadata_" +:+ now E +:+ ".json")) ->
  exists original final vertices faces : Z,
    ret (fst (save_results E dir self fs)) = Return true
    /\ snd (save_results E dir self fs)
         !! path_join dir ("metadata_" +:+ now E +:+ ".json")
       = Some (JSONFile [ ("processing_date", JStr (now E));
                          ("original_points", JInt original);
                          ("final_points", JInt final);
                          ("mesh_vertices", JInt vertices);
                          ("mesh_faces", JInt faces) ])
    /\ (original_point_count self = None -> original = 0%Z)
    /\ (point_cloud self = None -> final = 0%Z)
    /\ (forall pcd, point_cloud self = Some pcd ->
          final = Z.of_nat (length (PointCloud.points pcd)))
    /\ (mesh self = None -> vertices = 0%Z /\ faces = 0%Z)
    /\ (forall m, mesh self = Some m ->
          vertices = Z.of_nat (length (TriangleMesh.vertices m))
          /\ faces = Z.of_nat (length (TriangleMesh.triangles m)))
    /\ (point_cloud self = None -> mesh self = None ->
        original_point_count self = None ->
        original = 0%Z /\ final = 0%Z /\ vertices = 0%Z /\ faces = 0%Z).
Proof.
  intros _ H Hw. destruct (save_results_writes dir self fs H Hw) as [Hr Hf].
  unfold metadata_of, metadata_name in Hf.
  do 4 eexists. split; [exact Hr|]. split; [exact Hf|].
  repeat split; intros; subst;
    repeat match goal with
           | H : _ = None |- _ => rewrite H
           | H : _ = Some _ |- _ => rewrite H
           end; reflexivity.
Qed.

(** On every processor reached from a fresh one, whatever was loaded,
    the recorded original_points is 0. *)
Lemma original_points_zero (cs : list call) (dir : string) :
  usable_dir (disk (run E cs start)) dir ->
  writable (disk (run E cs start)) (path_join dir (metadata_name (now E))) ->
  exists rest,
    disk (run E (cs ++ [SaveResults dir]) start)
      !! path_join dir (metadata_name (now E))
    = Some (JSONFile (("processing_date", JStr (now E))
                      :: ("original_points", JInt 0) :: rest)).
Proof.
  intros H Hw. unfold run. rewrite fold_left_app. fold (run E cs start). simpl.
  unfold exec. simpl.
  destruct (save_results_writes dir (proc (run E cs start)) _ H Hw) as [_ Hf].
  destruct (save_results E dir (proc (run E cs start)) (disk (run E cs start)))
    as [r fs'] eqn:Hs.
  simpl in *. rewrite Hf. unfold metadata_of.
  rewrite run_keeps_original. simpl. eauto.
Qed.

End Metadata.

Lemma scans_disk_well_formed : well_formed scans_disk.
Proof.
  unfold well_formed, scans_disk.
  apply map_Forall_insert_2; [|apply map_Forall_insert_2; [|apply map_Forall_empty]].
  - split; [reflexivity|].
    change (os.ancestors "scans/notes.json") with ["scans"].
    constructor; [reflexivity | constructor].
  - split; [reflexivity | constructor].
Defined.

Lemma scans_out_usable : usable_dir scans_disk "scans/out/run1".
Proof.
  split; [reflexivity|]. right. split; [reflexivity|].
  change (os.ancestors "scans/out/run1") with ["scans"; "scans/out"].
  constructor; [right; reflexivity|].
  constructor; [left; reflexivity|]. constructor.
Defined.

Lemma save_results_metadata_witness :
  well_formed scans_disk
  /\ usable_dir scans_disk "scans/out/run1"
  /\ writable scans_disk
       (path_join "scans/out/run1" ("metadata_" +:+ now Reference.env +:+ ".json"))
  /\ exists original final vertices faces : Z,
    ret (fst (save_results Reference.env "scans/out/run1" __init__ scans_disk))
    = Return true
    /\ snd (save_results Reference.env "scans/out/run1" __init__ scans_disk)
         !! path_join "scans/out/run1" ("metadata_" +:+ now Reference.env +:+ ".json")
       = Some (JSONFile [ ("processing_date", JStr (now Reference.env));
                          ("original_points", JInt original);
                          ("final_points", JInt final);
                          ("mesh_vertices", JInt vertices);
                          ("mesh_faces", JInt faces) ])
    /\ (original_point_count __init__ = None -> original = 0%Z)
    /\ (point_cloud __init__ = None -> final = 0%Z)
    /\ (forall pcd, point_cloud __init__ = Some pcd ->
          final = Z.of_nat (length (PointCloud.points pcd)))
    /\ (mesh __init__ = None -> vertices = 0%Z /\ faces = 0%Z)
    /\ (forall m, mesh __init__ = Some m ->
          vertices = Z.of_nat (length (TriangleMesh.vertices m))
          /\ faces = Z.of_nat (length (TriangleMesh.triangles m)))
    /\ (point_cloud __init__ = None -> mesh __init__ = None ->
        original_point_count __init__ = None ->
        original = 0%Z /\ final = 0%Z /\ vertices = 0%Z /\ faces = 0%Z).
Proof.
  assert (writable scans_disk
            (path_join "scans/out/run1" ("metadata_" +:+ now Reference.env +:+ ".json")))
    as Hw.
  { unfold writable. vm_compute. discriminate. }
  split; [exact scans_disk_well_formed|].
  split; [exact scans_out_usable|]. split; [exact Hw|].
  exact (save_results_metadata Reference.env "scans/out/run1" __init__ scans_disk
           scans_disk_well_formed scans_out_usable Hw).
Defined.

(** A save into a directory that is missing together with the one above
    it, next to a file that stays. *)
Example save_results_creates_directories :
  snd (save_results Reference.env "scans/out/run1" __init__ scans_disk) !! "scans/out"
  = Some Directory
  /\ snd (save_results Reference.env "scans/out/run1" __init__ scans_disk)
       !! "scans/out/run1"
     = Some Directory
  /\ snd (save_results Reference.env "scans/out/run1" __init__ scans_disk)
       !! "scans/notes.json"
     = Some (JSONFile [("site", JStr "quarry")])
  /\ (exists e,
        fst (save_results Reference.env "scans/notes.json/out" __init__ scans_disk)
        = Result (Raise (OSError e)) __init__ []).
Proof.
  split; [reflexivity|]. split; [reflexivity|]. split; [reflexivity|].
  eexists. vm_compute. reflexivity.
Qed.

(** C1. On the reference disk, loading the three points of "bare.xyz"
    and saving: the load succeeds, the cloud has three points, and the
    metadata file records original_points = 0 next to final_points = 3. *)
Theorem original_points_not_recorded :
  ret (load_pointcloud Reference.env "bare.xyz" __init__) = Return true
  /\ (length ∘ PointCloud.points)
       <$> point_cloud (proc (run Reference.env [Load "bare.xyz"] start))
     = Some 3%nat
  /\ disk (run Reference.env [Load "bare.xyz"; SaveResults "out"] start)
       !! "out/metadata_20240131_093000.json"
     = Some (JSONFile [ ("processing_date", JStr "20240131_093000");
                        ("original_points", JInt 0);
                        ("final_points", JInt 3);
                        ("mesh_vertices", JInt 0);
                        ("mesh_faces", JInt 0) ]).
Proof. vm_compute. auto. Qed.

(* ===================================================================== *)
(** ** Pruning the reconstructed mesh                                    *)
(* ===================================================================== *)

Section Pruning.

Import TriangleMesh.

Lemma rank_cons_true (mask : list bool) (i : nat) :
  rank (true :: mask) (S i) = rank mask i.
Proof. reflexivity. Qed.

Lemma rank_cons_false (mask : list bool) (i : nat) :
  rank (false :: mask) (S i) = S (rank mask i).
Proof. reflexivity. Qed.

Lemma vertex_map_from_before (mask : list bool) :
  forall from to vm i,
    (i < from)%nat -> vertex_map_from mask from to vm !! i = vm !! i.
Proof.
  induction mask as [|[] mask IH]; intros from to vm i H; simpl.
  - reflexivity.
  - apply IH. lia.
  - rewrite IH by lia. apply lookup_insert_ne. lia.
Qed.

Lemma vertex_map_from_kept (mask : list bool) :
  forall from to vm k,
    mask !! k = Some false ->
    vertex_map_from mask from to vm !! (from + k)%nat = Some (to + rank mask k)%nat.
Proof.
  induction mask as [|b mask IH]; intros from to vm k H.
  - discriminate H.
  - destruct k as [|k]; simpl in H.
    + injection H as ->. simpl.
      rewrite vertex_map_from_before by lia.
      rewrite Nat.add_0_r, lookup_insert_eq. unfold rank. simpl. f_equal. lia.
    + replace (from + S k)%nat with (S from + k)%nat by lia.
      destruct b; cbn [vertex_map_from].
      * rewrite (IH _ _ _ _ H). now rewrite rank_cons_true.
      * rewrite (IH _ _ _ _ H). rewrite rank_cons_false. f_equal. lia.
Qed.

Lemma vertex_map_kept (mask : list bool) (k : nat) :
  mask !! k = Some false -> remap (vertex_map mask) k = rank mask k.
Proof.
  intros H. unfold remap, vertex_map.
  now rewrite (vertex_map_from_kept mask 0 0 ∅ k H).
Qed.

Lemma compact_lookup {A} (mask : list bool) :
  forall (l : list A) k,
    mask !! k = Some false -> compact mask l !! rank mask k = l !! k.
Proof.
  induction mask as [|b mask IH]; intros l k H.
  - discriminate H.
  - destruct l as [|x l].
    { now destruct b. }
    destruct k as [|k]; simpl in H.
    + injection H as ->. reflexivity.
    + destruct b; cbn [compact].
      * rewrite rank_cons_true. exact (IH l k H).
      * rewrite rank_cons_false. exact (IH l k H).
Qed.

Lemma compact_length {A} (mask : list bool) :
  forall l : list A, (length (compact mask l) <= length l)%nat.
Proof.
  induction mask as [|b mask IH]; intros [|x l]; simpl; try lia.
  destruct b; simpl; specialize (IH l); lia.
Qed.

Lemma compact_by_value {A B} (f : B -> bool) (ds : list B) :
  forall l : list A,
    compact (map f ds) l
    = map fst (List.filter (fun vd => negb (f (snd vd))) (combine l ds)).
Proof.
  induction ds as [|d ds IH]; intros [|x l]; simpl; try reflexivity.
  destruct (f d); simpl; now rewrite IH.
Qed.

Lemma compact_own_mask {A} (g : A -> bool) (l : list A) :
  compact (map g l) l = List.filter (fun x => negb (g x)) l.
Proof.
  induction l as [|x l IH]; simpl; [reflexivity|].
  destruct (g x); simpl; now rewrite IH.
Qed.

Lemma rank_by_value {B} (f : B -> bool) (ds : list B) :
  forall i, rank (map f ds) i = length (List.filter (fun d => negb (f d)) (take i ds)).
Proof.
  unfold rank. induction ds as [|d ds IH]; intros [|i]; simpl; try reflexivity.
  destruct (f d); simpl; now rewrite IH.
Qed.

Lemma masked_by_value (densities : list float) (q : float) (i : nat) :
  masked (map (fun d => (d <? q)%float) densities) i = sparse densities q i.
Proof.
  unfold masked, sparse.
  change (map (fun d => (d <? q)%float) densities)
    with ((fun d => (d <? q)%float) <$> densities).
  rewrite list_lookup_fmap. now destruct (densities !! i).
Qed.

Lemma triangle_masked_by_value (densities : list float) (q : float)
    (tr : nat * nat * nat) :
  triangle_masked (map (fun d => (d <? q)%float) densities) tr
  = uses_sparse densities q tr.
Proof.
  destruct tr as [[a b] c]. unfold triangle_masked, uses_sparse.
  now rewrite !masked_by_value.
Qed.

(** A vertex that stays is found at its new index. *)
Lemma kept_vertex_at_new_index {A} (densities : list float) (q : float)
    (l : list A) (i : nat) (v : A) :
  length densities = length l ->
  sparse densities q i = false -> l !! i = Some v ->
  compact (map (fun d => (d <? q)%float) densities) l !! new_index densities q i
  = Some v.
Proof.
  intros Hlen Hs Hv. unfold new_index.
  rewrite <- (rank_by_value (fun d => (d <? q)%float)).
  rewrite compact_lookup; [exact Hv|].
  change (map (fun d => (d <? q)%float) densities)
    with ((fun d => (d <? q)%float) <$> densities).
  rewrite list_lookup_fmap.
  unfold sparse in Hs.
  destruct (densities !! i) as [d|] eqn:Hd; simpl.
  - now rewrite Hs.
  - apply lookup_ge_None in Hd. apply lookup_lt_Some in Hv. lia.
Qed.

(** The corners of a triangle that stays are renumbered by [new_index]. *)
Lemma remap_kept_corner (densities : list float) (q : float) (n i : nat) :
  length densities = n -> (i < n)%nat -> sparse densities q i = false ->
  remap (vertex_map (map (fun d => (d <? q)%float) densities)) i
  = new_index densities q i.
Proof.
  intros Hlen Hi Hs. unfold new_index.
  rewrite <- (rank_by_value (fun d => (d <? q)%float)).
  apply vertex_map_kept.
  change (map (fun d => (d <? q)%float) densities)
    with ((fun d => (d <? q)%float) <$> densities).
  rewrite list_lookup_fmap. unfold sparse in Hs.
  destruct (densities !! i) as [d|] eqn:Hd; simpl.
  - now rewrite Hs.
  - apply lookup_ge_None in Hd. lia.
Qed.

Lemma remove_vertices_by_mask_prunes (raw pruned : t) (densities : list float)
    (q : float) :
  remove_vertices_by_mask raw (map (fun d => (d <? q)%float) densities) = Return pruned ->
  length densities = length (vertices raw) /\ pruned_from raw densities q pruned.
Proof.
  unfold remove_vertices_by_mask. rewrite length_map.
  destruct (length densities =? length (vertices raw))%nat eqn:Hlen; simpl;
    [|discriminate].
  apply Nat.eqb_eq in Hlen. intros [= <-]. split; [exact Hlen|].
  unfold pruned_from. simpl.
  assert (forall i v, sparse densities q i = false -> vertices raw !! i = Some v ->
            compact (map (fun d => (d <? q)%float) densities) (vertices raw)
              !! new_index densities q i = Some v) as Hsame.
  { intros i v. now apply kept_vertex_at_new_index. }
  split; [exact (compact_by_value (fun d => (d <? q)%float) densities (vertices raw))|].
  split; [apply compact_length|].
  split; [exact Hsame|].
  intros Hb.
  rewrite (map_ext _ _ (triangle_masked_by_value densities q)).
  rewrite compact_own_mask.
  assert (Forall (fun tr =>
            remap_triangle (vertex_map (map (fun d => (d <? q)%float) densities)) tr
            = renumber densities q tr
            /\ corner_ok (length (compact (map (fun d => (d <? q)%float) densities)
                                          (vertices raw)))
                         (renumber densities q tr))
          (List.filter (fun tr => negb (uses_sparse densities q tr)) (triangles raw)))
    as Hkept.
  { apply Forall_forall. intros [[a b] c] Hin.
    apply list_elem_of_In, filter_In in Hin as [Hin Hs].
    unfold faces_in_bounds in Hb. rewrite Forall_forall in Hb.
    apply list_elem_of_In, Hb in Hin. simpl in Hin. destruct Hin as (Ha & Hb' & Hc).
    unfold uses_sparse in Hs. apply negb_true_iff in Hs.
    apply orb_false_iff in Hs as [Hs Hsc]. apply orb_false_iff in Hs as [Hsa Hsb].
    split.
    - unfold remap_triangle, renumber.
      now rewrite !(remap_kept_corner densities q (length (vertices raw))).
    - simpl.
      destruct (lookup_lt_is_Some_2 (vertices raw) a Ha) as [va Hva].
      destruct (lookup_lt_is_Some_2 (vertices raw) b Hb') as [vb Hvb].
      destruct (lookup_lt_is_Some_2 (vertices raw) c Hc) as [vc Hvc].
      repeat split; eapply lookup_lt_Some; eapply Hsame; eassumption. }
  split.
  - apply map_ext_in. intros tr Hin. rewrite Forall_forall in Hkept.
    now apply list_elem_of_In, Hkept in Hin.
  - unfold faces_in_bounds. simpl. apply Forall_forall. intros tr' Hin.
    apply list_elem_of_In, in_map_iff in Hin as (tr & <- & Hin).
    rewrite Forall_forall in Hkept. apply list_elem_of_In, Hkept in Hin as [-> Hok].
    exact Hok.
Qed.

Variable E : Env.

(** C8. When [create_mesh] returns [True], the mesh it stores is the
    reconstruction pruned at [np.quantile(densities, 0.1)]: exactly the
    vertices whose density is below that threshold are gone, so the vertex
    count did not grow, every vertex that stays is found at its new index,
    and, the faces of the reconstruction being within bounds, the faces
    that used a removed vertex are gone and the others, renumbered, are
    within bounds of the pruned vertex list. *)
Theorem create_mesh_prunes (depth : Z) (width scale : float) (self : PointCloudProcessor) :
  ret (create_mesh E depth width scale self) = Return true ->
  exists pcd raw densities q pruned,
    point_cloud self = Some pcd
    /\ create_from_point_cloud_poisson E pcd depth width scale = Return (raw, densities)
    /\ quantile E densities tenth = Return q
    /\ mesh (self' (create_mesh E depth width scale self)) = Some pruned
    /\ length densities = length (vertices raw)
    /\ pruned_from raw densities q pruned.
Proof.
  unfold create_mesh.
  destruct (point_cloud self) as [pcd|] eqn:Hp, (normals self) as [n|] eqn:Hn;
    try discriminate.
  destruct (create_from_point_cloud_poisson E pcd depth width scale)
    as [[raw densities]|e] eqn:Hraw; [|discriminate].
  destruct (quantile E densities tenth) as [q|e] eqn:Hq; [|discriminate].
  destruct (remove_vertices_by_mask raw _) as [pruned|e] eqn:Hr; [|discriminate].
  intros _. exists pcd, raw, densities, q, pruned.
  apply remove_vertices_by_mask_prunes in Hr as [Hlen Hpr].
  simpl. auto 10.
Qed.

End Pruning.

Lemma create_mesh_prunes_witness :
  ret (create_mesh Reference.env 8 tenth 1.1%float oriented) = Return true
  /\ exists pcd raw densities q pruned,
      point_cloud oriented = Some pcd
      /\ create_from_point_cloud_poisson Reference.env pcd 8 tenth 1.1%float
         = Return (raw, densities)
      /\ quantile Reference.env densities tenth = Return q
      /\ mesh (self' (create_mesh Reference.env 8 tenth 1.1%float oriented)) = Some pruned
      /\ length densities = length (TriangleMesh.vertices raw)
      /\ pruned_from raw densities q pruned.
Proof.
  split; [reflexivity|].
  apply (create_mesh_prunes Reference.env 8 tenth 1.1%float oriented).
  reflexivity.
Defined.

(** The reference reconstruction loses its one sparse vertex and the
    three faces around it; the face that stays is renumbered. *)
Example tetra_pruned :
  mesh (self' (create_mesh Reference.env 8 tenth 1.1%float oriented))
  = Some (TriangleMesh.mk [(1, 0, 0); (0, 1, 0); (0, 0, 1)]%float [] []
                          [(0, 1, 2)]%nat []).
Proof. vm_compute. reflexivity. Qed.

(* ===================================================================== *)
(** ** The XYZ loader                                                    *)
(* ===================================================================== *)

Section XYZ.

Local Open Scope nat_scope.

Lemma loadtxt_matrix (table : list (list float)) (k : nat) :
  2 <= length table -> 2 <= k -> Forall (fun r => length r = k) table ->
  np.loadtxt table = Return (np.Matrix table).
Proof.
  intros Hn Hk Hall.
  destruct table as [|r1 [|r2 rest]]; simpl in Hn; try lia.
  unfold np.loadtxt.
  assert (forallb (np.same_length (length r1)) (r1 :: r2 :: rest) = true) as ->.
  { apply forallb_forall. intros r Hr. unfold np.same_length. apply Nat.eqb_eq.
    rewrite Forall_forall in Hall.
    rewrite (Hall r) by (now apply list_elem_of_In).
    rewrite (Hall r1) by constructor. reflexivity. }
  assert (length r1 = k) as H1 by (now inversion Hall).
  unfold np.squeeze, np.same_length.
  destruct r1 as [|x [|y r1]]; simpl in *; try lia. reflexivity.
Qed.

Lemma points_of_rows (rows : list (list float)) :
  Forall (fun r => 3 <= length r) rows ->
  o3d.Vector3dVector (np.Matrix (map (fun r => take (3 - 0) (drop 0 r)) rows))
  = Return (map point_of rows).
Proof.
  intros H. unfold o3d.Vector3dVector.
  assert (mapM o3d.as_vec3 (map (fun r => take (3 - 0) (drop 0 r)) rows)
          = Some (map point_of rows)) as ->; [|reflexivity].
  apply mapM_Some. induction H as [|r rows Hr _ IH]; simpl; constructor; [|exact IH].
  destruct r as [|x [|y [|z r]]]; simpl in Hr; try lia. reflexivity.
Qed.

Lemma colors_of_rows (rows : list (list float)) :
  Forall (fun r => 6 <= length r) rows ->
  o3d.Vector3dVector
    (np.divide (np.Matrix (map (fun r => take (6 - 3) (drop 3 r)) rows)) 255%float)
  = Return (map color_of rows).
Proof.
  intros H. unfold o3d.Vector3dVector, np.divide.
  match goal with |- context [mapM ?f ?l] =>
    assert (mapM f l = Some (map color_of rows)) as -> end; [|reflexivity].
  apply mapM_Some. induction H as [|r rows Hr _ IH]; simpl; constructor; [|exact IH].
  destruct r as [|x [|y [|z [|cr [|cg [|cb r]]]]]]; simpl in Hr; try lia. reflexivity.
Qed.

Lemma short_colors_refused (rows : list (list float)) (k : nat) :
  rows <> [] -> 3 < k < 6 -> Forall (fun r => length r = k) rows ->
  o3d.Vector3dVector
    (np.divide (np.Matrix (map (fun r => take (6 - 3) (drop 3 r)) rows)) 255%float)
  = Raise (RuntimeError "Unable to cast Python instance to C++ type").
Proof.
  intros Hne Hk H. unfold o3d.Vector3dVector, np.divide.
  match goal with |- context [mapM ?f ?l] =>
    assert (mapM f l = None) as -> end; [|reflexivity].
  apply mapM_None. destruct H as [|r rows Hr _]; [contradiction|].
  simpl. apply Exists_cons_hd.
  destruct r as [|x [|y [|z [|cr [|cg [|cb r]]]]]]; simpl in Hr; try lia; reflexivity.
Qed.

Variable E : Env.

Variable file_path : string.
Variable table : list (list float).
Hypothesis on_disk : read_table E file_path = Return table.

(** At least two lines of exactly three fields: the points, no colours. *)
Lemma load_xyz_three_columns :
  2 <= length table -> Forall (fun r => length r = 3) table ->
  _load_xyz E file_path = Return (PointCloud.mk (map point_of table) [] []).
Proof.
  intros Hn H. unfold _load_xyz. rewrite on_disk. cbn [mbind outcome_bind].
  rewrite (loadtxt_matrix table 3) by (auto; lia). cbn [mbind outcome_bind np.columns].
  rewrite points_of_rows by (eapply Forall_impl; [exact H|]; simpl; lia).
  cbn [mbind outcome_bind np.shape1].
  destruct table as [|r1 rest]; simpl in Hn; [lia|].
  inversion H as [|? ? H1 _]; subst. simpl. rewrite H1. reflexivity.
Qed.

(** At least two lines of six fields or more: the points, and the
    colours from fields 4 to 6 divided by 255. *)
Lemma load_xyz_six_columns (k : nat) :
  2 <= length table -> 6 <= k -> Forall (fun r => length r = k) table ->
  _load_xyz E file_path
  = Return (PointCloud.mk (map point_of table) (map color_of table) []).
Proof.
  intros Hn Hk H. unfold _load_xyz. rewrite on_disk. cbn [mbind outcome_bind].
  rewrite (loadtxt_matrix table k) by (auto; lia). cbn [mbind outcome_bind np.columns].
  rewrite points_of_rows by (eapply Forall_impl; [exact H|]; simpl; lia).
  cbn [mbind outcome_bind np.shape1].
  assert ((3 <? length (hd [] table)) = true) as ->.
  { destruct table as [|r1 rest]; simpl in Hn; [lia|].
    inversion H; subst. simpl. apply Nat.ltb_lt. lia. }
  cbn [mbind outcome_bind np.columns].
  rewrite colors_of_rows by (eapply Forall_impl; [exact H|]; simpl; lia).
  reflexivity.
Qed.

(** At least two lines of four or five fields: the colour branch is
    taken and the conversion of its one or two columns raises. *)
Lemma load_xyz_four_or_five_columns (k : nat) :
  2 <= length table -> 3 < k < 6 -> Forall (fun r => length r = k) table ->
  _load_xyz E file_path = Raise (RuntimeError "Unable to cast Python instance to C++ type").
Proof.
  intros Hn Hk H. unfold _load_xyz. rewrite on_disk. cbn [mbind outcome_bind].
  rewrite (loadtxt_matrix table k) by (auto; lia). cbn [mbind outcome_bind np.columns].
  rewrite points_of_rows by (eapply Forall_impl; [exact H|]; simpl; lia).
  cbn [mbind outcome_bind np.shape1].
  assert ((3 <? length (hd [] table)) = true) as ->.
  { destruct table as [|r1 rest]; simpl in Hn; [lia|].
    inversion H; subst. simpl. apply Nat.ltb_lt. lia. }
  cbn [mbind outcome_bind np.columns].
  rewrite (short_colors_refused table k); auto.
  destruct table; simpl in Hn; [lia|discriminate].
Qed.

(** A single line makes a 1-D (or 0-D) array, which cannot be sliced by
    columns. *)
Lemma load_xyz_single_line (row : list float) :
  table = [row] ->
  _load_xyz E file_path = Raise (IndexError "too many indices for array").
Proof.
  intros ->. unfold _load_xyz. rewrite on_disk. cbn [mbind outcome_bind].
  unfold np.loadtxt. simpl. unfold np.same_length. rewrite Nat.eqb_refl. simpl.
  destruct row as [|x [|y row]]; reflexivity.
Qed.

End XYZ.

(** C2. On the reference disk, "tagged.xyz" holds two lines of four
    fields each: its load takes the colour branch, the conversion of the
    single extra column raises, and [load_pointcloud] returns [False]
    without a point cloud.  The one-line file "single.xyz" cannot be loaded
    either. *)
Theorem load_xyz_four_columns_fails :
  read_table Reference.env "tagged.xyz" = Return [[0; 0; 0; 7]; [1; 2; 3; 9]]%float
  /\ _load_xyz Reference.env "tagged.xyz"
     = Raise (RuntimeError "Unable to cast Python instance to C++ type")
  /\ load_pointcloud Reference.env "tagged.xyz" __init__
     = Result (Return false) __init__
         [(ERROR, "Failed to load point cloud: Unable to cast Python instance to C++ type")]
  /\ read_table Reference.env "single.xyz" = Return [[1; 2; 3]]%float
  /\ load_pointcloud Reference.env "single.xyz" __init__
     = Result (Return false) __init__
         [(ERROR, "Failed to load point cloud: too many indices for array")].
Proof. vm_compute. auto 10. Qed.

(* ===================================================================== *)
(** ** The attribute arrays of the point cloud                           *)
(* ===================================================================== *)

Section Attributes.

Lemma select_length {A B} (mask : list bool) :
  forall (l1 : list A) (l2 : list B),
    length l1 = length l2 ->
    length (PointCloud.select mask l1) = length (PointCloud.select mask l2).
Proof.
  induction mask as [|b mask IH]; intros [|x l1] [|y l2] H; simpl in *;
    try reflexivity; try discriminate H.
  injection H as H. destruct b; simpl; now rewrite (IH l1 l2).
Qed.

Lemma select_combine {A B} (mask : list bool) :
  forall (l1 : list A) (l2 : list B),
    combine (PointCloud.select mask l1) (PointCloud.select mask l2)
    = PointCloud.select mask (combine l1 l2).
Proof.
  induction mask as [|b mask IH]; intros [|x l1] [|y l2]; simpl; try reflexivity.
  - destruct b; simpl; [reflexivity | apply combine_nil].
  - destruct b; simpl; now rewrite IH.
Qed.

Lemma select_sublist {A} (mask : list bool) :
  forall l : list A, sublist (PointCloud.select mask l) l.
Proof.
  induction mask as [|b mask IH]; intros l.
  - apply sublist_nil_l.
  - destruct l as [|x l]; simpl; [constructor|].
    destruct b; [apply sublist_skip | apply sublist_cons]; apply IH.
Qed.

Lemma has_colors_length (pcd : PointCloud.t) :
  PointCloud.has_colors pcd = true ->
  length (PointCloud.colors pcd) = length (PointCloud.points pcd).
Proof. unfold PointCloud.has_colors. intros H. apply andb_prop in H as [_ H]. now apply Nat.eqb_eq. Qed.

Lemma has_normals_length (pcd : PointCloud.t) :
  PointCloud.has_normals pcd = true ->
  length (PointCloud.normals pcd) = length (PointCloud.points pcd).
Proof. unfold PointCloud.has_normals. intros H. apply andb_prop in H as [_ H]. now apply Nat.eqb_eq. Qed.

Lemma select_by_index_consistent (pcd : PointCloud.t) (indices : list nat) :
  consistent (PointCloud.select_by_index pcd indices).
Proof.
  unfold consistent, PointCloud.select_by_index. simpl. split.
  - destruct (PointCloud.has_colors pcd) eqn:H; [right|now left].
    apply select_length. now apply has_colors_length.
  - destruct (PointCloud.has_normals pcd) eqn:H; [right|now left].
    apply select_length. now apply has_normals_length.
Qed.

(** The points that stay keep the normals they had. *)
Lemma select_by_index_pairs (pcd : PointCloud.t) (indices : list nat) :
  PointCloud.has_normals pcd = true ->
  sublist (combine (PointCloud.points (PointCloud.select_by_index pcd indices))
                   (PointCloud.normals (PointCloud.select_by_index pcd indices)))
          (combine (PointCloud.points pcd) (PointCloud.normals pcd)).
Proof.
  intros H. unfold PointCloud.select_by_index. simpl. rewrite H, select_combine.
  apply select_sublist.
Qed.

Lemma vector3d_length (rows : list (list float)) (vs : list vec3) :
  o3d.Vector3dVector (np.Matrix rows) = Return vs -> length vs = length rows.
Proof.
  unfold o3d.Vector3dVector. destruct (mapM o3d.as_vec3 rows) as [vs'|] eqn:H;
    [|discriminate].
  intros [= <-]. symmetry. eapply length_mapM, H.
Qed.

Lemma zip3_length {A} (f g h : A -> float) (l : list A) :
  length (np.zip3 (map f l) (map g l) (map h l)) = length l.
Proof. induction l as [|x l IH]; simpl; [reflexivity | now rewrite IH]. Qed.

Variable E : Env.

Lemma load_xyz_consistent (file_path : string) (pcd : PointCloud.t) :
  _load_xyz E file_path = Return pcd -> consistent pcd.
Proof.
  unfold _load_xyz.
  destruct (read_table E file_path) as [table|e]; [|discriminate].
  cbn [mbind outcome_bind].
  destruct (np.loadtxt table) as [[x|v|rows]|e]; try discriminate.
  cbn [mbind outcome_bind np.columns np.shape1].
  match goal with |- (?m ≫= _) = _ -> _ => destruct m as [pts|e] eqn:Hpts end;
    cbn [mbind outcome_bind mret outcome_ret]; [|discriminate].
  apply vector3d_length in Hpts. rewrite length_map in Hpts.
  destruct (3 <? length (hd [] rows))%nat.
  - cbn [mbind outcome_bind np.divide].
    match goal with |- (?m ≫= _) = _ -> _ => destruct m as [cs|e] eqn:Hcs end;
      cbn [mbind outcome_bind mret outcome_ret]; [|discriminate].
    apply vector3d_length in Hcs. rewrite !length_map in Hcs.
    intros [= <-]. split; simpl; [right; congruence | now left].
  - intros [= <-]. split; now left.
Qed.

Lemma load_las_consistent (file_path : string) (pcd : PointCloud.t) :
  _load_las E file_path = Return pcd -> consistent pcd.
Proof.
  unfold _load_las.
  destruct (laspy_read E file_path) as [las|e]; [|discriminate].
  cbn [mbind outcome_bind]. unfold np.vstack_T. rewrite !length_map, !Nat.eqb_refl.
  cbn [andb mbind outcome_bind].
  match goal with |- (?m ≫= _) = _ -> _ => destruct m as [pts|e] eqn:Hpts end;
    cbn [mbind outcome_bind mret outcome_ret]; [|discriminate].
  apply vector3d_length in Hpts. rewrite zip3_length in Hpts.
  destruct (has_red las && has_green las && has_blue las).
  - cbn [mbind outcome_bind np.divide].
    match goal with |- (?m ≫= _) = _ -> _ => destruct m as [cs|e] eqn:Hcs end;
      cbn [mbind outcome_bind mret outcome_ret]; [|discriminate].
    apply vector3d_length in Hcs. rewrite length_map, zip3_length in Hcs.
    intros [= <-]. split; simpl; [right; congruence | now left].
  - intros [= <-]. split; now left.
Qed.

Lemma load_dispatch_consistent (file_path : string) (pcd : PointCloud.t) :
  reader_consistent E -> load_dispatch E file_path = Return pcd -> consistent pcd.
Proof.
  intros Hr. unfold load_dispatch.
  destruct (_ || _); [apply load_las_consistent|].
  destruct (String.eqb _ ".ply"); [apply Hr|].
  destruct (String.eqb _ ".pcd"); [apply Hr|].
  destruct (String.eqb _ ".xyz"); [apply load_xyz_consistent|discriminate].
Qed.

Lemma estimate_consistent (pcd : PointCloud.t) (radius : float) (max_nn : Z) :
  consistent pcd -> consistent (pcd_estimate_normals E pcd radius max_nn).
Proof.
  intros [Hc _]. unfold consistent, pcd_estimate_normals. simpl.
  split; [exact Hc|]. right. now rewrite length_map, length_seq.
Qed.

Lemma remove_statistical_outlier_consistent (pcd cleaned : PointCloud.t) (k : Z) (s : float)
    (indices : list nat) :
  remove_statistical_outlier E pcd k s = Return (cleaned, indices) -> consistent cleaned.
Proof.
  unfold remove_statistical_outlier.
  destruct (o3d.size_t k) as [n|e]; cbn [mbind outcome_bind]; [|discriminate].
  destruct (_ || _); [discriminate|].
  destruct (PointCloud.points pcd).
  - intros [= <- _]. split; now left.
  - intros [= <- _]. apply select_by_index_consistent.
Qed.

Lemma voxel_down_sample_consistent (pcd sampled : PointCloud.t) (v : float) :
  voxel_down_sample E pcd v = Return sampled -> consistent sampled.
Proof.
  unfold voxel_down_sample. destruct (v <=? 0)%float; [discriminate|].
  destruct (voxel_cells E v _) as [cells|e]; cbn [mbind outcome_bind]; [|discriminate].
  intros [= <-]. unfold consistent. simpl. split.
  - destruct (PointCloud.has_colors pcd); [right|now left]. now rewrite !length_map.
  - destruct (PointCloud.has_normals pcd); [right|now left]. now rewrite !length_map.
Qed.

Lemma invoke_consistent (c : call) (self : PointCloudProcessor) (fs : gmap string file) :
  reader_consistent E -> cloud_consistent self ->
  cloud_consistent (self' (fst (invoke E c self fs))).
Proof.
  intros Hr. unfold cloud_consistent.
  destruct c as [p|r k|k s|v|d w s|dir]; simpl.
  - unfold load_pointcloud. destruct (load_dispatch E p) as [pcd|e] eqn:Hl; simpl.
    + intros _. eapply load_dispatch_consistent; eassumption.
    + auto.
  - now rewrite (proj1 (estimate_normals_unchanged E r k self)).
  - unfold remove_outliers. destruct (point_cloud self) as [pcd|] eqn:Hp; simpl.
    + destruct (remove_statistical_outlier E pcd k s) as [[cl ix]|e] eqn:Hc; simpl.
      * intros _. eapply remove_statistical_outlier_consistent, Hc.
      * now rewrite Hp.
    + now rewrite Hp.
  - unfold downsample. destruct (point_cloud self) as [pcd|] eqn:Hp; simpl.
    + destruct (voxel_down_sample E pcd v) as [sm|e] eqn:Hc; simpl.
      * intros _. eapply voxel_down_sample_consistent, Hc.
      * now rewrite Hp.
    + now rewrite Hp.
  - now rewrite (proj1 (proj2 (create_mesh_frame E d w s self))).
  - now rewrite save_results_frame.
Qed.

(** X18. Provided the library reader of .ply and .pcd files returns
    consistent clouds, every sequence of calls keeps the point cloud of the
    processor consistent: a colour array or a normal array that the cloud
    carries has one entry per point, also after outlier removal or
    downsampling has replaced the points. *)
Theorem run_consistent (cs : list call) (w : world) :
  reader_consistent E -> cloud_consistent (proc w) ->
  cloud_consistent (proc (run E cs w)).
Proof.
  intros Hr. unfold run. revert w.
  induction cs as [|c cs IH]; intros w H; simpl; [exact H|].
  apply IH. rewrite exec_proc. now apply invoke_consistent.
Qed.

End Attributes.

Lemma reference_reader_consistent : reader_consistent Reference.env.
Proof.
  intros path pcd. simpl. unfold Reference.cloud_files.
  destruct (String.eqb path "plate.ply"); intros [= <-].
  - split; [left | right]; reflexivity.
  - split; left; reflexivity.
Defined.

(** C3. On the reference disk, loading the three points of "bare.xyz"
    and estimating normals with the default parameters: the load succeeds,
    and the estimation raises the [TypeError] of the search-parameter
    constructor, which is given a [max_nn] it has no parameter for.
    Nothing is logged and the processor is as it was: three points, a cloud
    without a normal array, and no array in [self.normals]. *)
Theorem normal_estimation_raises :
  ret (load_pointcloud Reference.env "bare.xyz" __init__) = Return true
  /\ estimate_normals Reference.env tenth 30
       (proc (run Reference.env [Load "bare.xyz"] start))
     = Result (Raise (TypeError "__init__(): incompatible constructor arguments."))
         (proc (run Reference.env [Load "bare.xyz"] start)) []
  /\ (length ∘ PointCloud.points)
       <$> point_cloud (proc (run Reference.env
                                  [Load "bare.xyz"; EstimateNormals tenth 30] start))
     = Some 3%nat
  /\ PointCloud.normals
       <$> point_cloud (proc (run Reference.env
                                  [Load "bare.xyz"; EstimateNormals tenth 30] start))
     = Some []
  /\ normals (proc (run Reference.env [Load "bare.xyz"; EstimateNormals tenth 30] start))
     = None.
Proof. vm_compute. repeat split. Qed.

(* ===================================================================== *)
(** ** The LAS loader and the shapes of XYZ files                        *)
(* ===================================================================== *)

Section Loaders.

Variable E : Env.

Lemma las_points_of_records (rs : list LasPoint) :
  o3d.Vector3dVector (np.Matrix (np.zip3 (map las_x rs) (map las_y rs) (map las_z rs)))
  = Return (map las_point_of rs).
Proof.
  unfold o3d.Vector3dVector.
  match goal with |- context [mapM ?f ?l] =>
    assert (mapM f l = Some (map las_point_of rs)) as -> end; [|reflexivity].
  apply mapM_Some. induction rs as [|r rs IH]; simpl; constructor; auto.
Qed.

Lemma las_colors_of_records (rs : list LasPoint) :
  o3d.Vector3dVector
    (np.divide
       (np.Matrix (np.zip3 (map (fun r => float_of_channel (las_red r)) rs)
                           (map (fun r => float_of_channel (las_green r)) rs)
                           (map (fun r => float_of_channel (las_blue r)) rs)))
       65535%float)
  = Return (map las_color_of rs).
Proof.
  unfold o3d.Vector3dVector, np.divide.
  match goal with |- context [mapM ?f ?l] =>
    assert (mapM f l = Some (map las_color_of rs)) as -> end; [|reflexivity].
  apply mapM_Some. induction rs as [|r rs IH]; simpl; constructor; auto.
Qed.

Lemma load_las_decoded (file_path : string) (las : LasData) :
  laspy_read E file_path = Return las ->
  _load_las E file_path = Return (cloud_of_las las).
Proof.
  intros H. unfold _load_las, cloud_of_las. rewrite H. cbn [mbind outcome_bind].
  unfold np.vstack_T. rewrite !length_map, !Nat.eqb_refl.
  cbn [andb mbind outcome_bind].
  rewrite las_points_of_records. cbn [mbind outcome_bind].
  destruct (has_red las && has_green las && has_blue las); [|reflexivity].
  cbn [mbind outcome_bind]. rewrite las_colors_of_records. reflexivity.
Qed.

(** X1. Once laspy has decoded a .las or .laz file, the load cannot fail:
    the processor gets a cloud with one point per record, in the order of
    the records, with the colour channels divided by 65535 when the file
    has all three of them and without colours otherwise, and never with
    normals; the number of records is logged. *)
Theorem load_las_succeeds (file_path : string) (las : LasData)
    (self : PointCloudProcessor) :
  lower (suffix file_path) = ".las" \/ lower (suffix file_path) = ".laz" ->
  laspy_read E file_path = Return las ->
  load_pointcloud E file_path self = loaded self (cloud_of_las las)
  /\ length (PointCloud.points (cloud_of_las las)) = length (records las)
  /\ (has_red las && has_green las && has_blue las = false ->
      PointCloud.colors (cloud_of_las las) = [])
  /\ (has_red las && has_green las && has_blue las = true ->
      length (PointCloud.colors (cloud_of_las las)) = length (records las)).
Proof.
  intros Hext Hlas. split; [|split; [|split]].
  - unfold load_pointcloud, load_dispatch, loaded.
    assert (String.eqb (lower (suffix file_path)) ".las"
            || String.eqb (lower (suffix file_path)) ".laz" = true) as ->.
    { destruct Hext as [-> | ->]; reflexivity. }
    now rewrite (load_las_decoded _ _ Hlas).
  - unfold cloud_of_las. simpl. apply length_map.
  - unfold cloud_of_las. simpl. now intros ->.
  - unfold cloud_of_las. simpl. intros ->. apply length_map.
Qed.

(** X2. An XYZ file of two or more lines, all with the same number of
    fields: with exactly three fields the cloud has the points and no
    colours; with six or more it has the points and, as colours, fields 4
    to 6 divided by 255, further fields being ignored. *)
Theorem load_xyz_well_formed (file_path : string) (table : list (list float))
    (k : nat) :
  read_table E file_path = Return table ->
  (2 <= length table)%nat -> Forall (fun r => length r = k) table ->
  (k = 3%nat ->
   _load_xyz E file_path = Return (PointCloud.mk (map point_of table) [] []))
  /\ ((6 <= k)%nat ->
      _load_xyz E file_path
      = Return (PointCloud.mk (map point_of table) (map color_of table) [])).
Proof.
  intros Hr Hn Hk. split.
  - intros ->. now apply (load_xyz_three_columns E file_path table).
  - intros H6. now apply (load_xyz_six_columns E file_path table Hr k).
Qed.

(** X3. An XYZ file whose lines do not all have the same number of
    fields, or have fewer than three, cannot be loaded: the call returns
    [False] and the processor keeps what it had. *)
Theorem load_xyz_malformed (file_path : string) (table : list (list float))
    (self : PointCloudProcessor) :
  lower (suffix file_path) = ".xyz" ->
  read_table E file_path = Return table ->
  (exists r1 r2, In r1 table /\ In r2 table /\ length r1 <> length r2)
  \/ (table <> [] /\ Forall (fun r => length r < 3)%nat table) ->
  ret (load_pointcloud E file_path self) = Return false
  /\ self' (load_pointcloud E file_path self) = self.
Proof.
  intros Hext Hr Hbad.
  assert (exists e, _load_xyz E file_path = Raise e) as [e He].
  { unfold _load_xyz. rewrite Hr. cbn [mbind outcome_bind].
    destruct Hbad as [(r1 & r2 & H1 & H2 & Hne) | [Hne Hshort]].
    - unfold np.loadtxt. destruct table as [|r0 rest]; [contradiction|].
      assert (forallb (np.same_length (length r0)) (r0 :: rest) = false) as ->.
      { apply not_true_is_false. intros Hall. rewrite forallb_forall in Hall.
        apply Hall in H1, H2. unfold np.same_length in *.
        apply Nat.eqb_eq in H1, H2. congruence. }
      eauto.
    - destruct (np.loadtxt table) as [[x|v|rows]|e] eqn:Hl; cbn [mbind outcome_bind];
        eauto.
      cbn [np.columns mbind outcome_bind].
      assert (rows = table) as ->.
      { unfold np.loadtxt in Hl. destruct table as [|r0 rest]; [discriminate|].
        destruct (forallb _ _); [|discriminate].
        unfold np.squeeze in Hl.
        destruct r0 as [|x [|y r0]], rest; try discriminate;
          try (destruct (np.same_length _ _); discriminate);
          now injection Hl. }
      unfold o3d.Vector3dVector.
      match goal with |- context [mapM ?f ?l] =>
        assert (mapM f l = None) as -> end; [|cbn [mbind outcome_bind]; eauto].
      apply mapM_None. destruct Hshort as [|r rest Hlen _]; [contradiction|].
      simpl. apply Exists_cons_hd.
      destruct r as [|x [|y [|z r]]]; simpl in Hlen; try lia; reflexivity. }
  unfold load_pointcloud, load_dispatch. rewrite Hext. simpl. rewrite He. auto.
Qed.

End Loaders.

(* ===================================================================== *)
(** ** What every run keeps                                              *)
(* ===================================================================== *)

Section Driven.

Variable E : Env.

Lemma invoke_driven (c : call) (self : PointCloudProcessor) (fs : gmap string file) :
  driven self -> driven (self' (fst (invoke E c self fs))).
Proof.
  intros H.
  assert (forall pcd, driven (set_point_cloud self pcd)) as Hcloud.
  { intros pcd. destruct H as (Hc & Hm & Ho & Hn & Hmesh).
    unfold driven. simpl. repeat split; auto; intros _; now exists pcd. }
  destruct c as [p|r k|k s|v|d w s|dir]; simpl.
  - unfold load_pointcloud. destruct (load_dispatch E p); simpl; auto.
  - now rewrite (proj1 (estimate_normals_unchanged E r k self)).
  - unfold remove_outliers. destruct (point_cloud self) as [pcd|]; simpl; [|exact H].
    destruct (remove_statistical_outlier E pcd k s) as [[cl ix]|e]; simpl; auto.
  - unfold downsample. destruct (point_cloud self) as [pcd|]; simpl; [|exact H].
    destruct (voxel_down_sample E pcd v); simpl; auto.
  - assert (forall m, is_Some (normals self) -> driven (set_mesh self m)) as Hset.
    { intros m Hsome. destruct H as (Hc & Hm & Ho & Hn & Hmesh).
      unfold driven. simpl. repeat split; auto. }
    unfold create_mesh.
    destruct (point_cloud self) as [pcd|], (normals self) as [n|] eqn:Hno;
      simpl; try exact H.
    destruct (create_from_point_cloud_poisson E pcd d w s) as [[m ds]|e]; simpl;
      [|exact H].
    destruct (quantile E ds tenth) as [q|e]; simpl; [|apply Hset; eauto].
    destruct (TriangleMesh.remove_vertices_by_mask m _); simpl; apply Hset; eauto.
  - now rewrite save_results_frame.
Qed.

(** X4. After any sequence of calls on a fresh processor, successful or
    not: [self.colors], [self.metadata] and [original_point_count] are
    still as [__init__] left them (no method writes them), normals are
    only stored when a point cloud is, and a mesh only when normals are. *)
Theorem run_driven (cs : list call) : driven (proc (run E cs start)).
Proof.
  assert (forall w, driven (proc w) -> driven (proc (run E cs w))) as H.
  { unfold run. induction cs as [|c cs IH]; intros w Hw; simpl; [exact Hw|].
    apply IH. rewrite exec_proc. now apply invoke_driven. }
  apply H. unfold driven. simpl. repeat split; auto; intros [? ?]; discriminate.
Qed.






End Driven.

(* ===================================================================== *)
(** ** More on pruning                                                   *)
(* ===================================================================== *)

Section PruningMore.

Variable E : Env.

Lemma compact_nothing {A B} (f : B -> bool) (ds : list B) :
  forall l : list A,
    Forall (fun d => f d = false) ds -> length ds = length l ->
    TriangleMesh.compact (map f ds) l = l.
Proof.
  induction ds as [|d ds IH]; intros [|x l] Hall Hlen; simpl in *;
    try reflexivity; try discriminate Hlen.
  inversion Hall as [|? ? Hd Hds]; subst. rewrite Hd. f_equal. apply IH; auto.
Qed.

Lemma compact_count {A B} (f : B -> bool) (ds : list B) :
  forall l : list A,
    length ds = length l ->
    (length (TriangleMesh.compact (map f ds) l) + length (List.filter f ds)
     = length l)%nat.
Proof.
  induction ds as [|d ds IH]; intros [|x l] Hlen; simpl in *;
    try reflexivity; try discriminate Hlen.
  injection Hlen as Hlen. specialize (IH l Hlen).
  destruct (f d); simpl; lia.
Qed.

Lemma new_index_nothing (densities : list float) (q : float) (i : nat) :
  Forall (fun d => (d <? q)%float = false) densities ->
  (i <= length densities)%nat -> new_index densities q i = i.
Proof.
  intros Hall Hi. unfold new_index.
  assert (forall l : list float, Forall (fun d => (d <? q)%float = false) l ->
            List.filter (fun d => negb (d <? q)%float) l = l) as Hfil.
  { induction l as [|d l IH]; intros Hl; simpl; [reflexivity|].
    inversion Hl as [|? ? Hd Hl']; subst. rewrite Hd. simpl. f_equal. auto. }
  rewrite Hfil by (now apply Forall_take). rewrite length_take. lia.
Qed.

Lemma sparse_nothing (densities : list float) (q : float) (i : nat) :
  Forall (fun d => (d <? q)%float = false) densities -> sparse densities q i = false.
Proof.
  intros Hall. unfold sparse. destruct (densities !! i) as [d|] eqn:Hd; [|reflexivity].
  rewrite Forall_forall in Hall. apply Hall. eapply list_elem_of_lookup_2, Hd.
Qed.

Lemma remove_nothing (raw : TriangleMesh.t) (densities : list float) (q : float) :
  length densities = length (TriangleMesh.vertices raw) ->
  TriangleMesh.faces_in_bounds raw ->
  Forall (fun d => (d <? q)%float = false) densities ->
  TriangleMesh.remove_vertices_by_mask raw (map (fun d => (d <? q)%float) densities)
  = Return raw.
Proof.
  intros Hlen Hb Hall. unfold TriangleMesh.remove_vertices_by_mask.
  rewrite length_map, Hlen, Nat.eqb_refl. simpl.
  rewrite (map_ext _ _ (triangle_masked_by_value densities q)).
  assert (Forall (fun tr => uses_sparse densities q tr = false)
                 (TriangleMesh.triangles raw)) as Hnone.
  { apply Forall_forall. intros [[a b] c] _. unfold uses_sparse.
    now rewrite !sparse_nothing. }
  rewrite (compact_nothing (fun d => (d <? q)%float)) by auto.
  rewrite (compact_nothing (uses_sparse densities q)) by auto.
  assert (map (TriangleMesh.remap_triangle
                 (TriangleMesh.vertex_map (map (fun d => (d <? q)%float) densities)))
              (TriangleMesh.triangles raw)
          = TriangleMesh.triangles raw) as ->.
  { rewrite <- (map_id (TriangleMesh.triangles raw)) at 2.
    apply map_ext_in. intros [[a b] c] Hin.
    unfold TriangleMesh.faces_in_bounds in Hb. rewrite Forall_forall in Hb.
    apply list_elem_of_In, Hb in Hin. simpl in Hin. destruct Hin as (Ha & Hb' & Hc).
    unfold TriangleMesh.remap_triangle.
    rewrite !(remap_kept_corner densities q (length (TriangleMesh.vertices raw)))
      by auto using sparse_nothing.
    rewrite !new_index_nothing by (auto; lia). reflexivity. }
  assert ((if TriangleMesh.has_vertex_normals raw
           then TriangleMesh.compact (map (fun d => (d <? q)%float) densities)
                                     (TriangleMesh.vertex_normals raw)
           else TriangleMesh.vertex_normals raw) = TriangleMesh.vertex_normals raw) as ->.
  { unfold TriangleMesh.has_vertex_normals.
    destruct (_ && _) eqn:Hh; [|reflexivity].
    apply andb_prop in Hh as [_ Hh]. apply Nat.eqb_eq in Hh.
    apply compact_nothing; auto. congruence. }
  assert ((if TriangleMesh.has_vertex_colors raw
           then TriangleMesh.compact (map (fun d => (d <? q)%float) densities)
                                     (TriangleMesh.vertex_colors raw)
           else TriangleMesh.vertex_colors raw) = TriangleMesh.vertex_colors raw) as ->.
  { unfold TriangleMesh.has_vertex_colors.
    destruct (_ && _) eqn:Hh; [|reflexivity].
    apply andb_prop in Hh as [_ Hh]. apply Nat.eqb_eq in Hh.
    apply compact_nothing; auto. congruence. }
  assert ((if TriangleMesh.has_triangle_normals raw
           then TriangleMesh.compact (map (uses_sparse densities q)
                                          (TriangleMesh.triangles raw))
                                     (TriangleMesh.triangle_normals raw)
           else TriangleMesh.triangle_normals raw)
          = TriangleMesh.triangle_normals raw) as ->.
  { unfold TriangleMesh.has_triangle_normals.
    destruct (_ && _) eqn:Hh; [|reflexivity].
    apply andb_prop in Hh as [_ Hh]. apply Nat.eqb_eq in Hh.
    apply compact_nothing; auto. }
  now destruct raw.
Qed.

(** X6. When no vertex of the reconstruction has a density below the
    threshold that [np.quantile] returns (as when all densities are equal,
    or the threshold is NaN), [create_mesh] stores the reconstruction
    unchanged: same vertices, same attribute arrays, same faces. *)
Theorem create_mesh_prunes_nothing (depth : Z) (width scale : float)
    (self : PointCloudProcessor) (pcd : PointCloud.t) (raw : TriangleMesh.t)
    (densities : list float) (q : float) :
  point_cloud self = Some pcd -> is_Some (normals self) ->
  create_from_point_cloud_poisson E pcd depth width scale = Return (raw, densities) ->
  quantile E densities tenth = Return q ->
  length densities = length (TriangleMesh.vertices raw) ->
  TriangleMesh.faces_in_bounds raw ->
  Forall (fun d => (d <? q)%float = false) densities ->
  ret (create_mesh E depth width scale self) = Return true
  /\ mesh (self' (create_mesh E depth width scale self)) = Some raw.
Proof.
  intros Hp [n Hn] Hraw Hq Hlen Hb Hall. unfold create_mesh.
  rewrite Hp, Hn, Hraw, Hq, (remove_nothing raw densities q Hlen Hb Hall).
  split; reflexivity.
Qed.

(** X7. When [create_mesh] returns [True], the vertices of the stored mesh
    and the vertices whose density was below the threshold add up to the
    vertices of the reconstruction, the number of faces did not grow, and
    the one record logged gives the number of vertices that stay. *)
Theorem create_mesh_counts (depth : Z) (width scale : float)
    (self : PointCloudProcessor) :
  ret (create_mesh E depth width scale self) = Return true ->
  exists pcd raw densities q pruned,
    point_cloud self = Some pcd
    /\ create_from_point_cloud_poisson E pcd depth width scale = Return (raw, densities)
    /\ quantile E densities tenth = Return q
    /\ mesh (self' (create_mesh E depth width scale self)) = Some pruned
    /\ (length (TriangleMesh.vertices pruned)
        + length (List.filter (fun d => (d <? q)%float) densities)
        = length (TriangleMesh.vertices raw))%nat
    /\ (length (TriangleMesh.triangles pruned)
        <= length (TriangleMesh.triangles raw))%nat
    /\ logged (create_mesh E depth width scale self)
       = [(INFO, "Mesh created with "
                 +:+ pretty (length (TriangleMesh.vertices pruned)) +:+ " vertices")].
Proof.
  unfold create_mesh.
  destruct (point_cloud self) as [pcd|] eqn:Hp, (normals self) as [n|] eqn:Hn;
    try discriminate.
  destruct (create_from_point_cloud_poisson E pcd depth width scale)
    as [[raw densities]|e] eqn:Hraw; [|discriminate].
  destruct (quantile E densities tenth) as [q|e] eqn:Hq; [|discriminate].
  destruct (TriangleMesh.remove_vertices_by_mask raw _) as [pruned|e] eqn:Hr;
    [|discriminate].
  intros _. exists pcd, raw, densities, q, pruned. simpl.
  split; [reflexivity|]. split; [exact Hraw|]. split; [exact Hq|].
  split; [reflexivity|].
  unfold TriangleMesh.remove_vertices_by_mask in Hr. rewrite length_map in Hr.
  destruct (length densities =? length (TriangleMesh.vertices raw))%nat eqn:Hlen;
    simpl in Hr; [|discriminate].
  apply Nat.eqb_eq in Hlen. injection Hr as <-. simpl.
  split; [now apply compact_count|]. split; [|reflexivity].
  rewrite length_map. apply compact_length.
Qed.

End PruningMore.

Lemma create_mesh_prunes_nothing_witness :
  ret (create_mesh Reference.even_env 8 tenth 1.1%float oriented) = Return true
  /\ mesh (self' (create_mesh Reference.even_env 8 tenth 1.1%float oriented))
     = Some Reference.tetra.
Proof.
  apply (create_mesh_prunes_nothing Reference.even_env 8 tenth 1.1%float oriented
           Reference.plate_ply Reference.tetra [4; 4; 4; 4]%float 4%float).
  - reflexivity.
  - eexists. reflexivity.
  - reflexivity.
  - reflexivity.
  - reflexivity.
  - repeat constructor.
  - repeat constructor.
Defined.

Lemma create_mesh_counts_witness :
  ret (create_mesh Reference.env 8 tenth 1.1%float oriented) = Return true
  /\ exists pcd raw densities q pruned,
    point_cloud oriented = Some pcd
    /\ create_from_point_cloud_poisson Reference.env pcd 8 tenth 1.1%float
       = Return (raw, densities)
    /\ quantile Reference.env densities tenth = Return q
    /\ mesh (self' (create_mesh Reference.env 8 tenth 1.1%float oriented)) = Some pruned
    /\ (length (TriangleMesh.vertices pruned)
        + length (List.filter (fun d => (d <? q)%float) densities)
        = length (TriangleMesh.vertices raw))%nat
    /\ (length (TriangleMesh.triangles pruned)
        <= length (TriangleMesh.triangles raw))%nat
    /\ logged (create_mesh Reference.env 8 tenth 1.1%float oriented)
       = [(INFO, "Mesh created with "
                 +:+ pretty (length (TriangleMesh.vertices pruned)) +:+ " vertices")].
Proof.
  split; [reflexivity|].
  apply (create_mesh_counts Reference.env 8 tenth 1.1%float oriented). reflexivity.
Defined.

(* ===================================================================== *)
(** ** The artifacts on disk                                             *)
(* ===================================================================== *)

Section Artifacts.

Variable E : Env.

Lemma write_point_cloud_there (fs : gmap string file) (dir name : string)
    (pcd : PointCloud.t) :
  fs !! dir = Some Directory -> writable fs (path_join dir name) ->
  write_point_cloud fs dir name pcd !! path_join dir name
  = match PointCloud.points pcd with
    | [] => fs !! path_join dir name
    | _ :: _ => Some (CloudPLY pcd)
    end.
Proof.
  intros H Hw. unfold write_point_cloud. rewrite write_there by assumption.
  destruct (PointCloud.points pcd); [reflexivity|]. apply lookup_insert_eq.
Qed.

Lemma write_triangle_mesh_there (fs : gmap string file) (dir name : string)
    (m : TriangleMesh.t) :
  fs !! dir = Some Directory -> writable fs (path_join dir name) ->
  write_triangle_mesh fs dir name m !! path_join dir name
  = match TriangleMesh.vertices m with
    | [] => fs !! path_join dir name
    | _ :: _ => Some (MeshPLY m)
    end.
Proof.
  intros H Hw. unfold write_triangle_mesh. rewrite write_there by assumption.
  destruct (TriangleMesh.vertices m); [reflexivity|]. apply lookup_insert_eq.
Qed.

(** X8. On a disk that lets the three files be written (a usable output
    directory, and no directory standing at the path of any of them) a save
    writes the current point cloud to processed_cloud_<timestamp>.ply and
    the current mesh to mesh_<timestamp>.ply, next to the metadata, whose
    final_points and mesh_vertices are then the sizes of what the two files
    hold.  An empty cloud or mesh is not written (Open3D refuses it and
    [save_results] ignores the refusal), and neither is an absent one: the
    path keeps what it held before, while the call still returns [True]. *)
Theorem save_results_artifacts (dir : string) (self : PointCloudProcessor)
    (fs : gmap string file) :
  well_formed fs ->
  usable_dir fs dir ->
  writable fs (path_join dir (cloud_name (now E))) ->
  writable fs (path_join dir (mesh_name (now E))) ->
  writable fs (path_join dir (metadata_name (now E))) ->
  snd (save_results E dir self fs) !! path_join dir (cloud_name (now E))
  = match point_cloud self with
    | Some pcd =>
        match PointCloud.points pcd with
        | [] => fs !! path_join dir (cloud_name (now E))
        | _ :: _ => Some (CloudPLY pcd)
        end
    | None => fs !! path_join dir (cloud_name (now E))
    end
  /\ snd (save_results E dir self fs) !! path_join dir (mesh_name (now E))
     = match mesh self with
       | Some m =>
           match TriangleMesh.vertices m with
           | [] => fs !! path_join dir (mesh_name (now E))
           | _ :: _ => Some (MeshPLY m)
           end
       | None => fs !! path_join dir (mesh_name (now E))
       end
  /\ snd (save_results E dir self fs) !! path_join dir (metadata_name (now E))
     = Some (JSONFile (metadata_of (now E) self))
  /\ ret (fst (save_results E dir self fs)) = Return true.
Proof.
  intros _ H Hwc Hwm Hwj.
  destruct (save_results_disk E dir self fs H Hwj)
    as (fs1 & fs2 & fs3 & H1 & Hsame & Hfs2 & Hfs3 & ->).
  destruct (names_differ (now E)) as (Hcm & Hcj & Hmj).
  destruct (names_named (now E)) as (Hc & Hm & Hj).
  assert (forall a b, a <> b -> path_join dir a <> path_join dir b) as Hneq.
  { intros a b Hab Heq. now apply path_join_cancel in Heq. }
  assert (forall a, a <> "" -> fs1 !! path_join dir a = fs !! path_join dir a) as Hold.
  { intros a Ha. apply Hsame; [now apply path_join_longer|].
    now apply path_join_not_above. }
  assert (fs2 !! dir = Some Directory
          /\ fs2 !! path_join dir (mesh_name (now E))
             = fs !! path_join dir (mesh_name (now E))) as [H2 H2'].
  { subst fs2. destruct (point_cloud self) as [pcd|].
    - rewrite !write_point_cloud_elsewhere.
      + split; [exact H1 | now apply Hold].
      + apply not_eq_sym, Hneq, Hcm.
      + intros Heq. now apply (path_join_longer dir (cloud_name (now E))).
    - split; [exact H1 | now apply Hold]. }
  cbn [fst snd ret]. split; [|split; [|split]].
  - rewrite lookup_insert_ne by (apply not_eq_sym, Hneq, Hcj).
    assert (fs3 !! path_join dir (cloud_name (now E))
            = fs2 !! path_join dir (cloud_name (now E))) as ->.
    { subst fs3. destruct (mesh self); [|reflexivity].
      apply write_triangle_mesh_elsewhere, Hneq, Hcm. }
    subst fs2. destruct (point_cloud self) as [pcd|].
    + rewrite write_point_cloud_there;
        [| exact H1 | unfold writable; now rewrite Hold].
      destruct (PointCloud.points pcd); [|reflexivity]. now apply Hold.
    + now apply Hold.
  - rewrite lookup_insert_ne by (apply not_eq_sym, Hneq, Hmj).
    subst fs3. destruct (mesh self) as [m|].
    + rewrite write_triangle_mesh_there;
        [| exact H2 | unfold writable; now rewrite H2'].
      destruct (TriangleMesh.vertices m); [exact H2' | reflexivity].
    + exact H2'.
  - apply lookup_insert_eq.
  - reflexivity.
Qed.

(** X9. Whether it goes through or not, a save touches nothing but the
    output directory, the directories above it (which it creates when they
    are missing) and the three files named after the timestamp: every other
    path of the disk holds what it held, and the processor is the same. *)
Theorem save_results_elsewhere (dir : string) (self : PointCloudProcessor)
    (fs : gmap string file) (p : string) :
  well_formed fs ->
  clean_path dir = true ->
  clean_path p = true ->
  p <> dir ->
  ~ In p (os.ancestors dir) ->
  p <> path_join dir (cloud_name (now E)) ->
  p <> path_join dir (mesh_name (now E)) ->
  p <> path_join dir (metadata_name (now E)) ->
  snd (save_results E dir self fs) !! p = fs !! p
  /\ self' (fst (save_results E dir self fs)) = self.
Proof.
  intros _ _ _ Hd Ha Hc Hm Hj. split; [|apply save_results_frame].
  unfold save_results.
  assert (forall fs1,
    (if os.exists_ fs dir then Return fs else os.makedirs fs dir) = Return fs1 ->
    fs1 !! p = fs !! p) as Hfs1.
  { unfold os.makedirs. destruct (os.exists_ fs dir); [now intros ? [= <-]|].
    destruct (String.eqb dir ""); [discriminate|].
    intros fs1 H. apply (mkdirs_elsewhere _ _ _ _ H).
    intros Hin. apply in_app_or in Hin as [Hin|[Hin|[]]]; [tauto | congruence]. }
  destruct (if os.exists_ fs dir then _ else _) as [fs1|e]; [|reflexivity].
  specialize (Hfs1 fs1 eq_refl).
  set (fs2 := match point_cloud self with Some pcd => _ | None => fs1 end).
  assert (fs2 !! p = fs !! p) as H2.
  { unfold fs2. destruct (point_cloud self); [|exact Hfs1].
    now rewrite write_point_cloud_elsewhere. }
  set (fs3 := match mesh self with Some m => _ | None => fs2 end).
  assert (fs3 !! p = fs !! p) as H3.
  { unfold fs3. destruct (mesh self); [|exact H2].
    now rewrite write_triangle_mesh_elsewhere. }
  unfold os.write. destruct (fs3 !! dir) as [[]|]; simpl; try exact H3.
  destruct (fs3 !! path_join dir _) as [[]|]; simpl; try exact H3;
    now rewrite lookup_insert_ne.
Qed.

(** X10. A save cannot go through when the output path is empty and
    absent, or is an existing file that is no directory: the call raises,
    nothing is logged, and the disk and the processor are as they were; no
    partial output is left behind. *)
Theorem save_results_unusable (dir : string) (self : PointCloudProcessor)
    (fs : gmap string file) :
  (dir = "" /\ fs !! dir = None)
  \/ (exists f, fs !! dir = Some f /\ f <> Directory) ->
  exists e,
    save_results E dir self fs = (Result (Raise (OSError e)) self [], fs).
Proof.
  intros [[-> Hnone] | (f & Hf & Hnd)]; unfold save_results, os.exists_.
  - rewrite Hnone, bool_decide_eq_false_2 by (intros [? ?]; discriminate).
    simpl. eauto.
  - rewrite Hf, bool_decide_eq_true_2 by eauto.
    assert (forall fs' name content,
              fs' !! dir = Some f ->
              exists e, os.write fs' dir name content = Raise (OSError e)) as Hw.
    { intros fs' name content H'. unfold os.write. rewrite H'.
      destruct f; [contradiction| | |]; eauto. }
    assert (match point_cloud self with
            | Some pcd => write_point_cloud fs dir (cloud_name (now E)) pcd
            | None => fs
            end = fs) as ->.
    { destruct (point_cloud self) as [pcd|]; [|reflexivity].
      unfold write_point_cloud.
      destruct (Hw fs (cloud_name (now E)) (CloudPLY pcd) Hf) as [e ->].
      now destruct (PointCloud.points pcd). }
    assert (match mesh self with
            | Some m => write_triangle_mesh fs dir (mesh_name (now E)) m
            | None => fs
            end = fs) as ->.
    { destruct (mesh self) as [m|]; [|reflexivity].
      unfold write_triangle_mesh.
      destruct (Hw fs (mesh_name (now E)) (MeshPLY m) Hf) as [e ->].
      now destruct (TriangleMesh.vertices m). }
    destruct (Hw fs (metadata_name (now E))
                 (JSONFile (metadata_of (now E) self)) Hf) as [e ->].
    eauto.
Qed.

End Artifacts.

(* ===================================================================== *)
(** ** Outlier removal, parameters and the log                           *)
(* ===================================================================== *)

Section Stages.

Variable E : Env.

Lemma select_by_index_points (pcd : PointCloud.t) (indices : list nat) :
  sublist (PointCloud.points (PointCloud.select_by_index pcd indices))
          (PointCloud.points pcd)
  /\ (PointCloud.has_colors pcd = true ->
      sublist (combine (PointCloud.points (PointCloud.select_by_index pcd indices))
                       (PointCloud.colors (PointCloud.select_by_index pcd indices)))
              (combine (PointCloud.points pcd) (PointCloud.colors pcd))).
Proof.
  unfold PointCloud.select_by_index. simpl. split.
  - apply select_sublist.
  - intros ->. rewrite select_combine. apply select_sublist.
Qed.

(** X11. A successful outlier removal neither adds nor reorders points:
    the points of the new cloud are a subsequence of the points before,
    each kept point comes with the colour it had, the mesh and the stored
    normals are not touched, and the number of points that remain is
    logged. *)
Theorem remove_outliers_subsequence (nb_neighbors : Z) (std_ratio : float)
    (self : PointCloudProcessor) (pcd : PointCloud.t) :
  point_cloud self = Some pcd ->
  ret (remove_outliers E nb_neighbors std_ratio self) = Return true ->
  exists cleaned,
    self' (remove_outliers E nb_neighbors std_ratio self) = set_point_cloud self cleaned
    /\ sublist (PointCloud.points cleaned) (PointCloud.points pcd)
    /\ (length (PointCloud.points cleaned) <= length (PointCloud.points pcd))%nat
    /\ (PointCloud.has_colors pcd = true ->
        sublist (combine (PointCloud.points cleaned) (PointCloud.colors cleaned))
                (combine (PointCloud.points pcd) (PointCloud.colors pcd)))
    /\ logged (remove_outliers E nb_neighbors std_ratio self)
       = [(INFO, "Outliers removed. Remaining points: "
                 +:+ pretty (length (PointCloud.points cleaned)))].
Proof.
  intros Hp. unfold remove_outliers. rewrite Hp.
  destruct (remove_statistical_outlier E pcd nb_neighbors std_ratio)
    as [[cleaned ix]|e] eqn:Hr; [|discriminate].
  intros _. exists cleaned. simpl. split; [reflexivity|].
  assert (sublist (PointCloud.points cleaned) (PointCloud.points pcd)
          /\ (PointCloud.has_colors pcd = true ->
              sublist (combine (PointCloud.points cleaned) (PointCloud.colors cleaned))
                      (combine (PointCloud.points pcd) (PointCloud.colors pcd))))
    as [Hs Hc].
  { unfold remove_statistical_outlier in Hr.
    destruct (o3d.size_t nb_neighbors) as [n|e];
      cbn [mbind outcome_bind] in Hr; [|discriminate Hr].
    destruct (_ || _); [discriminate|].
    destruct (PointCloud.points pcd) eqn:Hpts.
    - injection Hr as <- _. simpl. split; [constructor|].
      unfold PointCloud.has_colors. rewrite Hpts. discriminate.
    - rewrite <- Hpts in *. injection Hr as <- _. apply select_by_index_points. }
  split; [exact Hs|]. split; [now apply sublist_length|]. split; [exact Hc|reflexivity].
Qed.

(** X12. On a loaded cloud the library refuses some parameters, and
    neither method catches the exception, so it reaches the caller (no
    [False] is returned, nothing is logged) and the processor is as it was.
    Outlier removal with a number of neighbours that is negative, or too
    large for a [size_t], raises the [TypeError] of the binding; with no
    neighbour at all, or a ratio that is not positive, the [RuntimeError]
    of Open3D.  Downsampling with a voxel size that is not positive raises
    a [RuntimeError], and so it does when Open3D finds a positive voxel
    size too small for the extent of the cloud. *)
Theorem stages_refuse_parameters (self : PointCloudProcessor) (pcd : PointCloud.t) :
  point_cloud self = Some pcd ->
  (forall nb_neighbors std_ratio,
      (nb_neighbors < 0 \/ 2 ^ 64 <= nb_neighbors)%Z ->
      exists msg,
        remove_outliers E nb_neighbors std_ratio self
        = Result (Raise (TypeError msg)) self [])
  /\ (forall nb_neighbors std_ratio,
        (0 <= nb_neighbors < 2 ^ 64)%Z ->
        nb_neighbors = 0%Z \/ (std_ratio <=? 0)%float = true ->
        exists msg,
          remove_outliers E nb_neighbors std_ratio self
          = Result (Raise (RuntimeError msg)) self [])
  /\ (forall voxel_size,
        (voxel_size <=? 0)%float = true ->
        exists msg,
          downsample E voxel_size self = Result (Raise (RuntimeError msg)) self [])
  /\ (forall voxel_size e,
        (voxel_size <=? 0)%float = false ->
        voxel_cells E voxel_size (PointCloud.points pcd) = Raise e ->
        downsample E voxel_size self = Result (Raise e) self []).
Proof.
  intros Hp. split; [|split; [|split]].
  - intros k s Hk. unfold remove_outliers, remove_statistical_outlier, o3d.size_t.
    rewrite Hp.
    assert ((0 <=? k)%Z && (k <? 2 ^ 64)%Z = false) as ->; [|simpl; eauto].
    apply andb_false_iff. destruct Hk as [Hk|Hk]; [left | right]; lia.
  - intros k s Hk Hbad. unfold remove_outliers, remove_statistical_outlier, o3d.size_t.
    rewrite Hp.
    assert ((0 <=? k)%Z && (k <? 2 ^ 64)%Z = true) as ->.
    { apply andb_true_iff. split; lia. }
    cbn [mbind outcome_bind].
    assert ((k <? 1)%Z || (s <=? 0)%float = true) as ->; [|eauto].
    destruct Hbad as [-> | ->]; [reflexivity | apply orb_true_r].
  - intros v Hv. unfold downsample, voxel_down_sample. rewrite Hp, Hv. eauto.
  - intros v e Hv He. unfold downsample, voxel_down_sample. now rewrite Hp, Hv, He.
Qed.

(** X13. What a call logs goes with its outcome: a call that returns
    [True] logs exactly one INFO record; a load that fails logs exactly
    one ERROR record, which holds the message of the exception; any other
    call that returns [False], and any call that raises, logs nothing. *)
Theorem invoke_logs (c : call) (self : PointCloudProcessor) (fs : gmap string file) :
  (ret (fst (invoke E c self fs)) = Return true ->
   exists msg, logged (fst (invoke E c self fs)) = [(INFO, msg)])
  /\ (ret (fst (invoke E c self fs)) = Return false ->
      match c with
      | Load file_path =>
          exists e, load_dispatch E file_path = Raise e
                    /\ logged (fst (invoke E c self fs))
                       = [(ERROR, "Failed to load point cloud: " +:+ str e)]
      | _ => logged (fst (invoke E c self fs)) = []
      end)
  /\ (forall e, ret (fst (invoke E c self fs)) = Raise e ->
        logged (fst (invoke E c self fs)) = []).
Proof.
  destruct c as [p|r k|k s|v|d w s|dir]; simpl.
  - unfold load_pointcloud. destruct (load_dispatch E p) as [pcd|e]; simpl;
      repeat split; try discriminate; eauto.
  - unfold estimate_normals. destruct (point_cloud self); simpl;
      repeat split; try discriminate; eauto.
  - unfold remove_outliers. destruct (point_cloud self) as [pcd|]; simpl;
      [destruct (remove_statistical_outlier E pcd k s) as [[cl ix]|e]; simpl|];
      repeat split; try discriminate; eauto.
  - unfold downsample. destruct (point_cloud self) as [pcd|]; simpl;
      [destruct (voxel_down_sample E pcd v); simpl|];
      repeat split; try discriminate; eauto.
  - unfold create_mesh.
    destruct (point_cloud self) as [pcd|], (normals self) as [n|]; simpl;
      try (repeat split; try discriminate; eauto; fail).
    destruct (create_from_point_cloud_poisson E pcd d w s) as [[m ds]|e]; simpl;
      [|repeat split; try discriminate; eauto].
    destruct (quantile E ds tenth) as [q|e]; simpl;
      [|repeat split; try discriminate; eauto].
    destruct (TriangleMesh.remove_vertices_by_mask m _); simpl;
      repeat split; try discriminate; eauto.
  - unfold save_results.
    destruct (if os.exists_ fs dir then _ else _) as [fs1|e]; simpl;
      [|repeat split; try discriminate; eauto].
    destruct (os.write _ dir _ _); simpl; repeat split; try discriminate; eauto.
Qed.

End Stages.

(* ===================================================================== *)
(** ** The window                                                        *)
(* ===================================================================== *)

Lemma react_processor (ev : event) (app : CindirPointCloudManager) :
  processor (react ev app) = processor app.
Proof.
  destruct ev; simpl; try reflexivity.
  - unfold browse_file. now destruct (String.eqb filename "").
  - unfold import_pointcloud. now destruct (String.eqb (file_path_var app) "").
  - destruct (process_button_normal app); [|reflexivity].
    unfold start_processing. now destruct (no_current_file app).
  - now destruct (import_workers app).
  - now destruct (processing_workers app).
Qed.

Lemma session_processor (evs : list event) (app : CindirPointCloudManager) :
  processor (session evs app) = processor app.
Proof.
  unfold session. revert app. induction evs as [|ev evs IH]; intros app; simpl.
  - reflexivity.
  - now rewrite IH, react_processor.
Qed.

(** X14. The window never drives the pipeline: whatever the user does,
    its processor is the one [__init__] made, with no point cloud and no
    mesh.  For any text in the path entry that is not empty, pressing
    Import and letting the worker end reports an import that succeeded.
    When something follows the last "/" of the text (whether or not it
    names a file that exists or is supported), pressing Process and letting
    the worker end then reports a processing that succeeded; when the text
    ends in "/" the file name taken from it is empty, and pressing Process
    shows the error box that asks for an import, starts no worker and
    leaves the status line as it was. *)
Theorem window_only_simulates :
  (forall evs, processor (session evs Manager__init__) = __init__)
  /\ (forall text,
        text <> "" ->
        status_var (session [EditPath text; PressImport; ImportWorkerDone]
                            Manager__init__)
        = "Point cloud imported successfully! Ready for processing."
        /\ process_button_normal
             (session [EditPath text; PressImport; ImportWorkerDone] Manager__init__)
           = true
        /\ current_file
             (session [EditPath text; PressImport; ImportWorkerDone] Manager__init__)
           = Some (basename text))
  /\ (forall text,
        basename text <> "" ->
        status_var (session [EditPath text; PressImport; ImportWorkerDone;
                             PressProcess; ProcessingWorkerDone] Manager__init__)
        = "Processing completed successfully!"
        /\ dialogs (session [EditPath text; PressImport; ImportWorkerDone;
                             PressProcess; ProcessingWorkerDone] Manager__init__)
           = [showinfo "Success" "Point cloud processing completed!"]
        /\ point_cloud
             (processor (session [EditPath text; PressImport; ImportWorkerDone;
                                  PressProcess; ProcessingWorkerDone] Manager__init__))
           = None)
  /\ (forall text,
        text <> "" -> basename text = "" ->
        dialogs (session [EditPath text; PressImport; ImportWorkerDone; PressProcess]
                         Manager__init__)
        = [showerror "Error" "Please import a point cloud file first."]
        /\ processing_workers
             (session [EditPath text; PressImport; ImportWorkerDone; PressProcess]
                      Manager__init__)
           = 0%nat
        /\ status_var
             (session [EditPath text; PressImport; ImportWorkerDone; PressProcess]
                      Manager__init__)
           = "Point cloud imported successfully! Ready for processing.").
Proof.
  split; [|split; [|split]].
  - intros evs. apply session_processor.
  - intros text Ht. apply String.eqb_neq in Ht.
    unfold session. simpl. unfold import_pointcloud. simpl. rewrite Ht. simpl. auto.
  - intros text Hb.
    assert (text <> "") as Ht by (intros ->; now apply Hb).
    apply String.eqb_neq in Ht, Hb.
    unfold session. simpl. unfold import_pointcloud. simpl. rewrite Ht. simpl.
    unfold start_processing, no_current_file. simpl. rewrite Hb. simpl. auto.
  - intros text Ht Hb. apply String.eqb_neq in Ht.
    unfold session. simpl. unfold import_pointcloud. simpl. rewrite Ht. simpl.
    unfold start_processing, no_current_file. simpl. rewrite Hb. simpl. auto.
Qed.

Example import_of_a_directory :
  basename "scans/" = ""
  /\ dialogs (session [EditPath "scans/"; PressImport; ImportWorkerDone; PressProcess]
                      Manager__init__)
     = [showerror "Error" "Please import a point cloud file first."].
Proof. split; reflexivity. Qed.

Lemma react_window_ok (ev : event) (app : CindirPointCloudManager) :
  window_ok app -> window_ok (react ev app).
Proof.
  intros (Ha & Hb & Hc & Hd).
  destruct ev; simpl.
  - unfold browse_file. destruct (String.eqb filename ""); unfold window_ok; simpl; auto.
  - unfold window_ok; simpl; auto.
  - unfold window_ok; simpl; auto.
  - unfold import_pointcloud. destruct (String.eqb (file_path_var app) "");
      unfold window_ok; simpl; repeat split; auto; try apply Ha; auto; intros; lia.
  - destruct (process_button_normal app) eqn:Hbtn;
      [|unfold window_ok; rewrite Hbtn; auto].
    unfold start_processing, no_current_file.
    destruct (current_file app) as [f|] eqn:Hf.
    + destruct (String.eqb f ""); unfold window_ok; simpl; rewrite ?Hf, ?Hbtn;
        repeat split; auto; try discriminate; intros; try lia; right; lia.
    + destruct (Ha eq_refl) as (Hn & _). congruence.
  - destruct (import_workers app) as [|n] eqn:Hw;
      [unfold window_ok; rewrite Hw; auto|].
    unfold window_ok. simpl. repeat split; auto; discriminate.
  - destruct (processing_workers app) as [|n] eqn:Hw;
      [unfold window_ok; rewrite Hw; auto|].
    unfold window_ok. simpl. repeat split; try discriminate;
      match goal with
      | H : current_file app = None |- _ =>
          destruct (Ha H) as (_ & _ & H0); discriminate H0
      end.
Qed.

(** X15. Whatever the user does: as long as no import has completed the
    process button is disabled, nothing is being processed and no
    processing worker runs; whenever [processing] is set a processing
    worker is still to end; the button, once an import has completed, is
    only disabled while such a worker runs; and the progress bar only runs
    while some worker does. *)
Theorem session_window_ok (evs : list event) :
  window_ok (session evs Manager__init__).
Proof.
  assert (forall app, window_ok app -> window_ok (session evs app)) as H.
  { unfold session. induction evs as [|ev evs IH]; intros app Hok; simpl; [exact Hok|].
    apply IH. now apply react_window_ok. }
  apply H. unfold window_ok. simpl. repeat split; auto; try discriminate; lia.
Qed.

(* ===================================================================== *)
(** ** What the methods never store, and what is never undone           *)
(* ===================================================================== *)

Section Composition.

Variable E : Env.

Lemma invoke_stores_nothing (c : call) (self : PointCloudProcessor)
    (fs : gmap string file) :
  normals self = None -> mesh self = None ->
  normals (self' (fst (invoke E c self fs))) = None
  /\ mesh (self' (fst (invoke E c self fs))) = None.
Proof.
  intros Hn Hm. destruct c as [p|r k|k s|v|d w s|dir]; simpl.
  - destruct (load_frame E p self) as (-> & -> & _). auto.
  - rewrite (proj1 (estimate_normals_unchanged E r k self)). auto.
  - destruct (remove_outliers_frame E k s self) as (-> & -> & _). auto.
  - destruct (downsample_frame E v self) as (-> & -> & _). auto.
  - rewrite create_mesh_guarded; [auto|].
    apply missing_prerequisite_spec. now right.
  - rewrite save_results_frame. auto.
Qed.

(** X16. Through the methods of the class no normal array is ever stored
    and no mesh is ever made.  After any sequence of calls on a fresh
    processor [self.normals] and [self.mesh] are still [None]: normal
    estimation does not return [True] and leaves the processor as it finds
    it (on a loaded cloud it raises before it computes anything), and mesh
    reconstruction returns [False]. *)
Theorem normals_never_stored (cs : list call) :
  normals (proc (run E cs start)) = None
  /\ mesh (proc (run E cs start)) = None
  /\ (forall radius max_nn,
        self' (estimate_normals E radius max_nn (proc (run E cs start)))
        = proc (run E cs start)
        /\ (ret (estimate_normals E radius max_nn (proc (run E cs start)))
            = Return false
            \/ exists msg,
                 ret (estimate_normals E radius max_nn (proc (run E cs start)))
                 = Raise (TypeError msg)))
  /\ (forall depth width scale,
        create_mesh E depth width scale (proc (run E cs start))
        = Result (Return false) (proc (run E cs start)) []).
Proof.
  assert (forall w, normals (proc w) = None -> mesh (proc w) = None ->
                    normals (proc (run E cs w)) = None
                    /\ mesh (proc (run E cs w)) = None) as H.
  { unfold run. induction cs as [|c cs' IH]; intros w Hn Hm; simpl; [auto|].
    destruct (invoke_stores_nothing c (proc w) (disk w) Hn Hm) as [Hn' Hm'].
    apply IH; now rewrite exec_proc. }
  destruct (H start eq_refl eq_refl) as [Hn Hm].
  split; [exact Hn|]. split; [exact Hm|]. split.
  - intros radius max_nn. split; [apply estimate_normals_unchanged|].
    unfold estimate_normals. destruct (point_cloud _); simpl; eauto.
  - intros d w s. apply create_mesh_guarded, missing_prerequisite_spec. now right.
Qed.

Lemma invoke_keeps_set (c : call) (self : PointCloudProcessor) (fs : gmap string file) :
  (is_Some (point_cloud self) -> is_Some (point_cloud (self' (fst (invoke E c self fs)))))
  /\ (is_Some (normals self) -> is_Some (normals (self' (fst (invoke E c self fs)))))
  /\ (is_Some (mesh self) -> is_Some (mesh (self' (fst (invoke E c self fs))))).
Proof.
  destruct c as [p|r k|k s|v|d w s|dir]; simpl.
  - unfold load_pointcloud. destruct (load_dispatch E p); simpl; eauto.
  - rewrite (proj1 (estimate_normals_unchanged E r k self)). auto.
  - unfold remove_outliers. destruct (point_cloud self) as [pcd|] eqn:Hp; simpl;
      [|rewrite Hp; auto].
    destruct (remove_statistical_outlier E pcd k s) as [[cl ix]|e]; simpl;
      rewrite ?Hp; eauto.
  - unfold downsample. destruct (point_cloud self) as [pcd|] eqn:Hp; simpl;
      [|rewrite Hp; auto].
    destruct (voxel_down_sample E pcd v); simpl; rewrite ?Hp; eauto.
  - unfold create_mesh.
    destruct (point_cloud self) as [pcd|] eqn:Hp, (normals self) as [n|] eqn:Hn;
      simpl; rewrite ?Hp, ?Hn; auto.
    destruct (create_from_point_cloud_poisson E pcd d w s) as [[m ds]|e]; simpl;
      rewrite ?Hp, ?Hn; auto.
    destruct (quantile E ds tenth) as [q|e]; simpl; rewrite ?Hp, ?Hn; eauto.
    destruct (TriangleMesh.remove_vertices_by_mask m _); simpl;
      rewrite ?Hp, ?Hn; eauto.
  - rewrite save_results_frame. auto.
Qed.

(** X17. No call ever takes something away from the processor: a point
    cloud, a normal array or a mesh that is there before a sequence of
    calls (failing ones included) is still there after it, replaced
    perhaps but never cleared. *)
Theorem nothing_is_cleared (cs : list call) (w : world) :
  (is_Some (point_cloud (proc w)) -> is_Some (point_cloud (proc (run E cs w))))
  /\ (is_Some (normals (proc w)) -> is_Some (normals (proc (run E cs w))))
  /\ (is_Some (mesh (proc w)) -> is_Some (mesh (proc (run E cs w)))).
Proof.
  unfold run. revert w. induction cs as [|c cs IH]; intros w; simpl; [auto|].
  destruct (IH (exec E c w)) as (H1 & H2 & H3).
  destruct (invoke_keeps_set c (proc w) (disk w)) as (K1 & K2 & K3).
  rewrite exec_proc in H1, H2, H3. auto.
Qed.

End Composition.

(* ===================================================================== *)
(** ** The statements above on the reference disk                        *)
(* ===================================================================== *)

Lemma load_las_succeeds_witness :
  (lower (suffix "survey.las") = ".las" \/ lower (suffix "survey.las") = ".laz")
  /\ laspy_read Reference.env "survey.las" = Return Reference.survey_las
  /\ load_pointcloud Reference.env "survey.las" __init__
     = loaded __init__ (cloud_of_las Reference.survey_las)
  /\ length (PointCloud.points (cloud_of_las Reference.survey_las))
     = length (records Reference.survey_las)
  /\ (has_red Reference.survey_las && has_green Reference.survey_las
      && has_blue Reference.survey_las = false ->
      PointCloud.colors (cloud_of_las Reference.survey_las) = [])
  /\ (has_red Reference.survey_las && has_green Reference.survey_las
      && has_blue Reference.survey_las = true ->
      length (PointCloud.colors (cloud_of_las Reference.survey_las))
      = length (records Reference.survey_las)).
Proof.
  split; [left; reflexivity|]. split; [reflexivity|].
  apply (load_las_succeeds Reference.env "survey.las" Reference.survey_las __init__).
  - left. reflexivity.
  - reflexivity.
Defined.

Lemma load_xyz_well_formed_witness :
  read_table Reference.env "colored.xyz" = Return Reference.colored_xyz
  /\ (2 <= length Reference.colored_xyz)%nat
  /\ Forall (fun r => length r = 6%nat) Reference.colored_xyz
  /\ (6%nat = 3%nat ->
      _load_xyz Reference.env "colored.xyz"
      = Return (PointCloud.mk (map point_of Reference.colored_xyz) [] []))
  /\ ((6 <= 6)%nat ->
      _load_xyz Reference.env "colored.xyz"
      = Return (PointCloud.mk (map point_of Reference.colored_xyz)
                              (map color_of Reference.colored_xyz) [])).
Proof.
  assert (Forall (fun r => length r = 6%nat) Reference.colored_xyz) as H.
  { repeat constructor. }
  split; [reflexivity|]. split; [simpl; lia|]. split; [exact H|].
  apply (load_xyz_well_formed Reference.env "colored.xyz" Reference.colored_xyz 6).
  - reflexivity.
  - simpl. lia.
  - exact H.
Defined.

Lemma load_xyz_malformed_witness :
  lower (suffix "ragged.xyz") = ".xyz"
  /\ read_table Reference.even_env "ragged.xyz" = Return Reference.ragged_xyz
  /\ ret (load_pointcloud Reference.even_env "ragged.xyz" processed) = Return false
  /\ self' (load_pointcloud Reference.even_env "ragged.xyz" processed) = processed.
Proof.
  split; [reflexivity|]. split; [reflexivity|].
  apply (load_xyz_malformed Reference.even_env "ragged.xyz" Reference.ragged_xyz
           processed).
  - reflexivity.
  - reflexivity.
  - left. exists [0; 0; 0]%float, [1; 2]%float. simpl. split; [auto|]. split; [auto|lia].
Defined.


Lemma save_results_artifacts_witness :
  well_formed scans_disk
  /\ usable_dir scans_disk "scans/out"
  /\ writable scans_disk (path_join "scans/out" (cloud_name (now Reference.env)))
  /\ writable scans_disk (path_join "scans/out" (mesh_name (now Reference.env)))
  /\ writable scans_disk (path_join "scans/out" (metadata_name (now Reference.env)))
  /\ snd (save_results Reference.env "scans/out" processed scans_disk)
       !! path_join "scans/out" (cloud_name (now Reference.env))
     = match point_cloud processed with
       | Some pcd =>
           match PointCloud.points pcd with
           | [] => scans_disk !! path_join "scans/out" (cloud_name (now Reference.env))
           | _ :: _ => Some (CloudPLY pcd)
           end
       | None => scans_disk !! path_join "scans/out" (cloud_name (now Reference.env))
       end
  /\ snd (save_results Reference.env "scans/out" processed scans_disk)
       !! path_join "scans/out" (mesh_name (now Reference.env))
     = match mesh processed with
       | Some m =>
           match TriangleMesh.vertices m with
           | [] => scans_disk !! path_join "scans/out" (mesh_name (now Reference.env))
           | _ :: _ => Some (MeshPLY m)
           end
       | None => scans_disk !! path_join "scans/out" (mesh_name (now Reference.env))
       end
  /\ snd (save_results Reference.env "scans/out" processed scans_disk)
       !! path_join "scans/out" (metadata_name (now Reference.env))
     = Some (JSONFile (metadata_of (now Reference.env) processed))
  /\ ret (fst (save_results Reference.env "scans/out" processed scans_disk))
     = Return true.
Proof.
  assert (usable_dir scans_disk "scans/out") as H.
  { split; [reflexivity|]. right. split; [reflexivity|].
    change (os.ancestors "scans/out") with ["scans"].
    constructor; [right; reflexivity | constructor]. }
  assert (writable scans_disk (path_join "scans/out" (cloud_name (now Reference.env))))
    as Hc.
  { unfold writable. vm_compute. discriminate. }
  assert (writable scans_disk (path_join "scans/out" (mesh_name (now Reference.env))))
    as Hm.
  { unfold writable. vm_compute. discriminate. }
  assert (writable scans_disk (path_join "scans/out" (metadata_name (now Reference.env))))
    as Hj.
  { unfold writable. vm_compute. discriminate. }
  split; [exact scans_disk_well_formed|].
  split; [exact H|]. split; [exact Hc|]. split; [exact Hm|]. split; [exact Hj|].
  exact (save_results_artifacts Reference.env "scans/out" processed scans_disk
           scans_disk_well_formed H Hc Hm Hj).
Defined.

Lemma save_results_elsewhere_witness :
  well_formed scans_disk
  /\ clean_path "scans/out/run1" = true
  /\ clean_path "scans/notes.json" = true
  /\ "scans/notes.json" <> "scans/out/run1"
  /\ ~ In "scans/notes.json" (os.ancestors "scans/out/run1")
  /\ "scans/notes.json" <> path_join "scans/out/run1" (cloud_name (now Reference.env))
  /\ "scans/notes.json" <> path_join "scans/out/run1" (mesh_name (now Reference.env))
  /\ "scans/notes.json"
     <> path_join "scans/out/run1" (metadata_name (now Reference.env))
  /\ snd (save_results Reference.env "scans/out/run1" processed scans_disk)
       !! "scans/notes.json"
     = scans_disk !! "scans/notes.json"
  /\ self' (fst (save_results Reference.env "scans/out/run1" processed scans_disk))
     = processed.
Proof.
  assert ("scans/notes.json" <> "scans/out/run1") as H1 by discriminate.
  assert (~ In "scans/notes.json" (os.ancestors "scans/out/run1")) as Ha.
  { change (os.ancestors "scans/out/run1") with ["scans"; "scans/out"].
    intros [H|[H|[]]]; discriminate H. }
  assert ("scans/notes.json"
          <> path_join "scans/out/run1" (cloud_name (now Reference.env))) as H2
    by discriminate.
  assert ("scans/notes.json"
          <> path_join "scans/out/run1" (mesh_name (now Reference.env))) as H3
    by discriminate.
  assert ("scans/notes.json"
          <> path_join "scans/out/run1" (metadata_name (now Reference.env))) as H4
    by discriminate.
  split; [exact scans_disk_well_formed|]. split; [reflexivity|]. split; [reflexivity|].
  split; [exact H1|]. split; [exact Ha|]. split; [exact H2|]. split; [exact H3|].
  split; [exact H4|].
  exact (save_results_elsewhere Reference.env "scans/out/run1" processed scans_disk
           "scans/notes.json" scans_disk_well_formed eq_refl eq_refl H1 Ha H2 H3 H4).
Defined.

Lemma save_results_unusable_witness :
  ((∅ : gmap string file) !! "" = None)
  /\ exists e,
      save_results Reference.env "" processed ∅
      = (Result (Raise (OSError e)) processed [], ∅).
Proof.
  split; [reflexivity|].
  apply (save_results_unusable Reference.env "" processed ∅).
  left. split; reflexivity.
Defined.

Lemma remove_outliers_subsequence_witness :
  point_cloud oriented = Some Reference.plate_ply
  /\ ret (remove_outliers Reference.env 20 2%float oriented) = Return true
  /\ exists cleaned,
      self' (remove_outliers Reference.env 20 2%float oriented)
      = set_point_cloud oriented cleaned
      /\ sublist (PointCloud.points cleaned) (PointCloud.points Reference.plate_ply)
      /\ (length (PointCloud.points cleaned)
          <= length (PointCloud.points Reference.plate_ply))%nat
      /\ (PointCloud.has_colors Reference.plate_ply = true ->
          sublist (combine (PointCloud.points cleaned) (PointCloud.colors cleaned))
                  (combine (PointCloud.points Reference.plate_ply)
                           (PointCloud.colors Reference.plate_ply)))
      /\ logged (remove_outliers Reference.env 20 2%float oriented)
         = [(INFO, "Outliers removed. Remaining points: "
                   +:+ pretty (length (PointCloud.points cleaned)))].
Proof.
  split; [reflexivity|]. split; [reflexivity|].
  apply (remove_outliers_subsequence Reference.env 20 2%float oriented
           Reference.plate_ply).
  - reflexivity.
  - reflexivity.
Defined.

Lemma stages_refuse_parameters_witness :
  point_cloud oriented = Some Reference.plate_ply
  /\ (forall nb_neighbors std_ratio,
        (nb_neighbors < 0 \/ 2 ^ 64 <= nb_neighbors)%Z ->
        exists msg,
          remove_outliers Reference.env nb_neighbors std_ratio oriented
          = Result (Raise (TypeError msg)) oriented [])
  /\ (forall nb_neighbors std_ratio,
        (0 <= nb_neighbors < 2 ^ 64)%Z ->
        nb_neighbors = 0%Z \/ (std_ratio <=? 0)%float = true ->
        exists msg,
          remove_outliers Reference.env nb_neighbors std_ratio oriented
          = Result (Raise (RuntimeError msg)) oriented [])
  /\ (forall voxel_size,
        (voxel_size <=? 0)%float = true ->
        exists msg,
          downsample Reference.env voxel_size oriented
          = Result (Raise (RuntimeError msg)) oriented [])
  /\ (forall voxel_size e,
        (voxel_size <=? 0)%float = false ->
        voxel_cells Reference.env voxel_size (PointCloud.points Reference.plate_ply)
        = Raise e ->
        downsample Reference.env voxel_size oriented = Result (Raise e) oriented []).
Proof.
  split; [reflexivity|].
  apply (stages_refuse_parameters Reference.env oriented Reference.plate_ply).
  reflexivity.
Defined.

(** A voxel size of 1e-10 is too small for the unit square of the plate. *)
Example downsample_too_small :
  downsample Reference.env 1e-10%float oriented
  = Result (Raise (RuntimeError "voxel_size is too small.")) oriented [].
Proof. vm_compute. reflexivity. Qed.

Lemma run_consistent_witness :
  reader_consistent Reference.env
  /\ cloud_consistent (proc (World oriented ∅ []))
  /\ cloud_consistent
       (proc (run Reference.env
                  [RemoveOutliers 20 2%float; Downsample 0.5%float; Load "colored.xyz"]
                  (World oriented ∅ []))).
Proof.
  assert (cloud_consistent (proc (World oriented ∅ []))) as H.
  { split; [left | right]; reflexivity. }
  split; [exact reference_reader_consistent|]. split; [exact H|].
  exact (run_consistent Reference.env
           [RemoveOutliers 20 2%float; Downsample 0.5%float; Load "colored.xyz"]
           (World oriented ∅ []) reference_reader_consistent H).
Defined.
